(** * inkpy_jinja.converter: a shallow embedding and its properties

    The module under study is [inkpy_jinja/converter.py]: a [Converter]
    object unpacks an OpenDocument archive into a temporary directory,
    renders [content.xml] and [styles.xml] with a sandboxed template
    engine, packs the directory again, hands the archive to a conversion
    backend and finally deletes the temporary state.

    The embedding follows the Python text method by method.  Python
    values, strings and exceptions are modelled first, then the part of
    [os.path], [os], [shutil] and [zipfile] that the module calls (over a
    small POSIX file-system model without symbolic links or permissions),
    and then the [Converter] class itself in a state-and-exception monad.
    Strings stand for both [str] and [bytes]. *)

From Stdlib Require Import String Ascii List ZArith Lia Bool.
From stdpp Require Import base strings list gmap pretty.

Set Warnings "-register-all".

Local Open Scope string_scope.
Local Open Scope list_scope.

(** ** Python values *)

(** The values a caller can put in [data], [settings] or [lang_code].
    Only two things are ever asked of such a value: its truth value
    ([if not v]) and its text under [str.format].  [PyObj] stands for any
    other object (a list, a float, an instance, ...) through these two
    observations. *)
Inductive PyVal :=
| PyNone
| PyBool (b : bool)
| PyInt (z : Z)
| PyStr (s : string)
| PyObj (truth : bool) (text : string).

Definition str_is_empty (s : string) : bool :=
  match s with EmptyString => true | String _ _ => false end.

(** [bool(v)] *)
Definition truthy (v : PyVal) : bool :=
  match v with
  | PyNone => false
  | PyBool b => b
  | PyInt z => negb (Z.eqb z 0)
  | PyStr s => negb (str_is_empty s)
  | PyObj t _ => t
  end.

(** ["{}".format(v)] *)
Definition py_str (v : PyVal) : string :=
  match v with
  | PyNone => "None"
  | PyBool true => "True"
  | PyBool false => "False"
  | PyInt z => pretty z
  | PyStr s => s
  | PyObj _ s => s
  end.

(** [d.get(key)] and [d.get(key, default)] on a [dict] with string keys *)
Definition dict_get (d : gmap string PyVal) (key : string) : PyVal :=
  default PyNone (d !! key).

Definition dict_get_default (d : gmap string PyVal) (key : string)
    (dflt : PyVal) : PyVal :=
  default dflt (d !! key).

(** ** Exceptions *)

(** The exception classes that can reach a caller of the module.
    [FileDoesNotExist] and [IdDoesNotExist] are the module's own; the
    others are Python's.  [External] is anything raised by the template
    engine or by a conversion backend. *)
Inductive Exc :=
| FileDoesNotExist
| IdDoesNotExist
| OSError (msg : string)
| FileNotFoundError
| NotADirectoryError
| IsADirectoryError
| FileExistsError
| BadZipFile
| IndexError
| AttributeError
| KeyError
| RecursionError
| External (tag : string).

Inductive ExcClass :=
| CException | CError | CFileDoesNotExist | CIdDoesNotExist
| COSError | CFileNotFoundError | CNotADirectoryError | CIsADirectoryError
| CFileExistsError | CBadZipFile | CIndexError | CAttributeError
| CKeyError | CRecursionError | CExternal.

(** [type(e)] *)
Definition class_of (e : Exc) : ExcClass :=
  match e with
  | FileDoesNotExist => CFileDoesNotExist
  | IdDoesNotExist => CIdDoesNotExist
  | OSError _ => COSError
  | FileNotFoundError => CFileNotFoundError
  | NotADirectoryError => CNotADirectoryError
  | IsADirectoryError => CIsADirectoryError
  | FileExistsError => CFileExistsError
  | BadZipFile => CBadZipFile
  | IndexError => CIndexError
  | AttributeError => CAttributeError
  | KeyError => CKeyError
  | RecursionError => CRecursionError
  | External _ => CExternal
  end.

(** The direct base class: [class Error(Exception)],
    [class FileDoesNotExist(Error)], [class IdDoesNotExist(Error)] in the
    module, and Python's hierarchy below [OSError]. *)
Definition base_class (c : ExcClass) : option ExcClass :=
  match c with
  | CException => None
  | CError => Some CException
  | CFileDoesNotExist | CIdDoesNotExist => Some CError
  | COSError => Some CException
  | CFileNotFoundError | CNotADirectoryError | CIsADirectoryError
  | CFileExistsError => Some COSError
  | CBadZipFile | CIndexError | CAttributeError | CKeyError
  | CRecursionError | CExternal => Some CException
  end.

Definition class_eqb (a b : ExcClass) : bool :=
  match a, b with
  | CException, CException | CError, CError
  | CFileDoesNotExist, CFileDoesNotExist | CIdDoesNotExist, CIdDoesNotExist
  | COSError, COSError | CFileNotFoundError, CFileNotFoundError
  | CNotADirectoryError, CNotADirectoryError
  | CIsADirectoryError, CIsADirectoryError
  | CFileExistsError, CFileExistsError | CBadZipFile, CBadZipFile
  | CIndexError, CIndexError | CAttributeError, CAttributeError
  | CKeyError, CKeyError
  | CRecursionError, CRecursionError | CExternal, CExternal => true
  | _, _ => false
  end.

(** [issubclass(c, target)]; the hierarchy is three levels deep. *)
Fixpoint issubclass_fuel (n : nat) (c target : ExcClass) : bool :=
  class_eqb c target ||
  match n with
  | O => false
  | S n' => match base_class c with
            | Some b => issubclass_fuel n' b target
            | None => false
            end
  end.

Definition issubclass := issubclass_fuel 3.

(** [isinstance(e, target)]: what an [except target:] clause catches. *)
Definition isinstance (e : Exc) (target : ExcClass) : bool :=
  issubclass (class_of e) target.

(** ** Strings *)

Definition ascii_eqb (a b : ascii) : bool := Ascii.eqb a b.

Definition slash : ascii := "/"%char.

(** [s.startswith(p)] *)
Fixpoint startswith (p s : string) : bool :=
  match p, s with
  | EmptyString, _ => true
  | String _ _, EmptyString => false
  | String a p', String b s' => ascii_eqb a b && startswith p' s'
  end.

(** [s[n:]] and [s[:n]] for [n >= 0] *)
Fixpoint str_drop (n : nat) (s : string) : string :=
  match n, s with
  | O, _ => s
  | S _, EmptyString => EmptyString
  | S n', String _ s' => str_drop n' s'
  end.

Fixpoint str_take (n : nat) (s : string) : string :=
  match n, s with
  | O, _ => EmptyString
  | S _, EmptyString => EmptyString
  | S n', String c s' => String c (str_take n' s')
  end.

(** [s[:-3]]: all but the last three characters, the empty string when
    [s] is shorter than that. *)
Definition drop_last3 (s : string) : string :=
  str_take (String.length s - 3) s.

(** [s.replace(old, new, 1)]: the first occurrence only; an empty [old]
    matches at position 0. *)
Fixpoint replace_first (old new s : string) : string :=
  if startswith old s then new +:+ str_drop (String.length old) s
  else match s with
       | EmptyString => EmptyString
       | String c s' => String c (replace_first old new s')
       end.

(** [s.split(sep)] for a one-character separator: never empty. *)
Fixpoint split_on (sep : ascii) (s : string) : list string :=
  match s with
  | EmptyString => [EmptyString]
  | String c s' =>
      if ascii_eqb c sep then EmptyString :: split_on sep s'
      else match split_on sep s' with
           | [] => [String c EmptyString]
           | w :: ws => String c w :: ws
           end
  end.

(** [sep.join(l)] *)
Fixpoint join_with (sep : string) (l : list string) : string :=
  match l with
  | [] => EmptyString
  | [w] => w
  | w :: ws => w +:+ sep +:+ join_with sep ws
  end.

(** [s.split('/')[-1]] *)
Definition last_segment (s : string) : string :=
  List.last (split_on slash s) EmptyString.

(** [s.split('-')[0]] *)
Definition first_segment (sep : ascii) (s : string) : string :=
  List.hd EmptyString (split_on sep s).

(** [s.rstrip('/')] *)
Fixpoint rstrip_slash (s : string) : string :=
  match s with
  | EmptyString => EmptyString
  | String c s' =>
      let r := rstrip_slash s' in
      if str_is_empty r && ascii_eqb c slash then EmptyString
      else String c r
  end.

(** [s == '/' * len(s)] *)
Definition all_slashes (s : string) : bool := str_is_empty (rstrip_slash s).

(** [s.endswith('/')] *)
Fixpoint endswith_slash (s : string) : bool :=
  match s with
  | EmptyString => false
  | String c EmptyString => ascii_eqb c slash
  | String _ s' => endswith_slash s'
  end.

(** Strip every leading separator (the loop
    [while arcname[0] in (os.sep, os.altsep): arcname = arcname[1:]]
    without its index check). *)
Fixpoint lstrip_slash (s : string) : string :=
  match s with
  | String c s' => if ascii_eqb c slash then lstrip_slash s' else s
  | EmptyString => EmptyString
  end.

(** ** [os.path] (posixpath) *)

(** [(p[:i], p[i:])] with [i = p.rfind('/') + 1] *)
Fixpoint cut_last_slash (p : string) : string * string :=
  match p with
  | EmptyString => (EmptyString, EmptyString)
  | String c p' =>
      let '(h, t) := cut_last_slash p' in
      if str_is_empty h
      then if ascii_eqb c slash then (String c EmptyString, t)
           else (EmptyString, String c t)
      else (String c h, t)
  end.

(** [os.path.split] *)
Definition os_path_split (p : string) : string * string :=
  let '(h, t) := cut_last_slash p in
  (if negb (str_is_empty h) && negb (all_slashes h) then rstrip_slash h else h,
   t).

Definition os_path_dirname (p : string) : string := fst (os_path_split p).
Definition os_path_basename (p : string) : string := snd (cut_last_slash p).

(** [os.path.join(a, b)] *)
Definition os_path_join (a b : string) : string :=
  if startswith "/" b then b
  else if str_is_empty a || endswith_slash a then a +:+ b
  else a +:+ "/" +:+ b.

(** [os.path.normcase]: the identity on POSIX. *)
Definition os_path_normcase (s : string) : string := s.

(** The component loop of [os.path.normpath]; [acc] is [new_comps]
    reversed. *)
Fixpoint normpath_comps (initial_slashes : nat) (comps acc : list string)
    : list string :=
  match comps with
  | [] => rev acc
  | comp :: rest =>
      if str_is_empty comp || String.eqb comp "." then
        normpath_comps initial_slashes rest acc
      else if negb (String.eqb comp "..")
              || (Nat.eqb initial_slashes 0 && match acc with [] => true | _ => false end)
              || match acc with top :: _ => String.eqb top ".." | [] => false end
      then normpath_comps initial_slashes rest (comp :: acc)
      else normpath_comps initial_slashes rest (List.tl acc)
  end.

(** [os.path.normpath] *)
Definition os_path_normpath (path : string) : string :=
  if str_is_empty path then "."
  else
    let initial_slashes :=
      if startswith "/" path then
        if startswith "//" path && negb (startswith "///" path) then 2 else 1
      else 0 in
    let comps := normpath_comps initial_slashes (split_on slash path) [] in
    let body := join_with "/" comps in
    let res := match initial_slashes with
               | 0 => body
               | 1 => "/" +:+ body
               | _ => "//" +:+ body
               end in
    if str_is_empty res then "." else res.

(** [os.path.splitext] on a path: the extension starts at the last dot of
    the last segment, unless only dots precede it. *)
Fixpoint only_dots (s : string) : bool :=
  match s with
  | EmptyString => true
  | String c s' => ascii_eqb c "."%char && only_dots s'
  end.

(** [(b[:i], b[i:])] with [i = b.rfind('.')], or [(b, "")] without a dot *)
Fixpoint cut_last_dot (b : string) : string * string :=
  match b with
  | EmptyString => (EmptyString, EmptyString)
  | String c b' =>
      let '(r, e) := cut_last_dot b' in
      if str_is_empty e
      then if ascii_eqb c "."%char then (EmptyString, String c b')
           else (String c r, EmptyString)
      else (String c r, e)
  end.

Definition splitext_name (b : string) : string * string :=
  let '(r, e) := cut_last_dot b in
  if str_is_empty e || only_dots r then (b, EmptyString) else (r, e).

Definition os_path_splitext (p : string) : string * string :=
  let '(h, t) := cut_last_slash p in
  let '(r, e) := splitext_name t in
  (h +:+ r, e).

(** ** The file system

    A tree of directories and files.  A regular file holds either plain
    bytes or a zip archive, the latter kept as its list of members (name
    and content, in the order they were written) instead of its bytes.
    Directory entries are kept in listing order. *)

Inductive FileData :=
| Raw (bytes : string)
| Zip (members : list (string * FileData)).

Inductive Node :=
| File (d : FileData)
| Dir (entries : list (string * Node)).

Fixpoint assoc {A : Type} (k : string) (l : list (string * A)) : option A :=
  match l with
  | [] => None
  | (k', v) :: l' => if String.eqb k k' then Some v else assoc k l'
  end.

(** Replace the entry [k] in place, or append it. *)
Fixpoint assoc_put {A : Type} (k : string) (v : A) (l : list (string * A))
    : list (string * A) :=
  match l with
  | [] => [(k, v)]
  | (k', v') :: l' =>
      if String.eqb k k' then (k, v) :: l' else (k', v') :: assoc_put k v l'
  end.

Fixpoint assoc_del {A : Type} (k : string) (l : list (string * A))
    : list (string * A) :=
  match l with
  | [] => []
  | (k', v') :: l' =>
      if String.eqb k k' then assoc_del k l' else (k', v') :: assoc_del k l'
  end.

(** A canonical path is the list of names from the root. *)
Fixpoint node_at (t : Node) (cp : list string) : option Node :=
  match cp with
  | [] => Some t
  | c :: cp' =>
      match t with
      | Dir es => match assoc c es with
                  | Some child => node_at child cp'
                  | None => None
                  end
      | File _ => None
      end
  end.

Definition is_dir_node (n : Node) : bool :=
  match n with Dir _ => true | File _ => false end.

(** [Some true] for a directory, [Some false] for a regular file. *)
Definition kind_at (t : Node) (cp : list string) : option bool :=
  option_map is_dir_node (node_at t cp).

(** Store [n] at [cp]; the parent of [cp] has to be a directory, else
    nothing changes. *)
Fixpoint put (t : Node) (cp : list string) (n : Node) : Node :=
  match cp with
  | [] => n
  | c :: cp' =>
      match t with
      | Dir es =>
          match assoc c es with
          | Some child => Dir (assoc_put c (put child cp' n) es)
          | None => match cp' with
                    | [] => Dir (assoc_put c n es)
                    | _ :: _ => t
                    end
          end
      | File _ => t
      end
  end.

(** Remove the entry at [cp] with everything below it; the root stays. *)
Fixpoint del (t : Node) (cp : list string) : Node :=
  match cp with
  | [] => t
  | c :: cp' =>
      match t with
      | Dir es =>
          match cp' with
          | [] => Dir (assoc_del c es)
          | _ :: _ => match assoc c es with
                      | Some child => Dir (assoc_put c (del child cp') es)
                      | None => t
                      end
          end
      | File _ => t
      end
  end.

(** One library call that touches the file system. *)
Inductive IOCall := Call (fn : string) (path : string).

Record World := mkWorld {
  fs : Node;                (* the root directory *)
  cwd : list string;        (* the working directory, canonical *)
  log : list IOCall         (* the calls made so far, oldest first *)
}.

(** *** Path resolution *)

(** One component of a path, looked up in the directory [cur]. *)
Definition resolve_step (t : Node) (cur : list string) (c : string)
    : Exc + list string :=
  match kind_at t cur with
  | Some true =>
      inr (if str_is_empty c || String.eqb c "." then cur
           else if String.eqb c ".." then removelast cur
           else cur ++ [c])
  | Some false => inl NotADirectoryError
  | None => inl FileNotFoundError
  end.

Fixpoint resolve_from (t : Node) (cur : list string) (comps : list string)
    : Exc + list string :=
  match comps with
  | [] => inr cur
  | c :: cs =>
      match resolve_step t cur c with
      | inr cur' => resolve_from t cur' cs
      | inl e => inl e
      end
  end.

(** The canonical path a path string denotes.  Every component but the
    last has to be an existing directory; the last one may be missing. *)
Definition resolve (w : World) (p : string) : Exc + list string :=
  if str_is_empty p then inl FileNotFoundError
  else resolve_from (fs w) (if startswith "/" p then [] else cwd w)
         (split_on slash p).

Definition path_node (w : World) (p : string) : option Node :=
  match resolve w p with
  | inr cp => node_at (fs w) cp
  | inl _ => None
  end.

Definition exists_b (w : World) (p : string) : bool :=
  match path_node w p with Some _ => true | None => false end.

Definition isdir_b (w : World) (p : string) : bool :=
  match path_node w p with Some (Dir _) => true | _ => false end.

(** ** The monad of the embedding: state and exceptions *)

Inductive Result (A : Type) :=
| Ok (a : A)
| Raise (e : Exc).
Arguments Ok {A} a.
Arguments Raise {A} e.

Definition M (A : Type) : Type := World -> Result A * World.

Definition ret {A : Type} (a : A) : M A := fun w => (Ok a, w).

Definition bind {A B : Type} (m : M A) (k : A -> M B) : M B :=
  fun w => match m w with
           | (Ok a, w') => k a w'
           | (Raise e, w') => (Raise e, w')
           end.

Definition raise {A : Type} (e : Exc) : M A := fun w => (Raise e, w).

Notation "'let*' x ':=' m 'in' k" := (bind m (fun x => k))
  (at level 10, x name, m at level 100, k at level 200).
Notation "m1 ;;; m2" := (bind m1 (fun _ => m2))
  (at level 100, m2 at level 200, right associativity).

(** [try: m  except cls: pass] *)
Definition except_pass (cls : ExcClass) (m : M unit) : M unit :=
  fun w => match m w with
           | (Raise e, w') =>
               if isinstance e cls then (Ok tt, w') else (Raise e, w')
           | r => r
           end.

Definition get_world : M World := fun w => (Ok w, w).

Definition set_fs (t : Node) : M unit :=
  fun w => (Ok tt, mkWorld t (cwd w) (log w)).

Definition trace (fn path : string) : M unit :=
  fun w => (Ok tt, mkWorld (fs w) (cwd w) (log w ++ [Call fn path])).

Definition lift_exc {A : Type} (r : Exc + A) : M A :=
  match r with inr a => ret a | inl e => raise e end.

(** [for x in l: body(x)] *)
Fixpoint for_each {A : Type} (l : list A) (body : A -> M unit) : M unit :=
  match l with
  | [] => ret tt
  | x :: l' => body x ;;; for_each l' body
  end.

(** A loop that threads a value (an object updated by the body). *)
Fixpoint fold_each {A S : Type} (l : list A) (body : S -> A -> M S) (s : S)
    : M S :=
  match l with
  | [] => ret s
  | x :: l' => let* s' := body s x in fold_each l' body s'
  end.

(** ** [os], [shutil] *)

Definition os_path_exists (p : string) : M bool :=
  trace "os.path.exists" p ;;;
  let* w := get_world in ret (exists_b w p).

Definition os_path_isdir (p : string) : M bool :=
  trace "os.path.isdir" p ;;;
  let* w := get_world in ret (isdir_b w p).

(** Trailing separators are allowed in the name of a directory to
    create. *)
Definition strip_trailing (p : string) : string :=
  if all_slashes p then p else rstrip_slash p.

Definition os_mkdir (p : string) : M unit :=
  trace "os.mkdir" p ;;;
  let* w := get_world in
  let* cp := lift_exc (resolve w (strip_trailing p)) in
  match kind_at (fs w) cp with
  | Some _ => raise FileExistsError
  | None => set_fs (put (fs w) cp (Dir []))
  end.

(** [os.makedirs(name)], following its Python text; the recursion is on a
    strictly shorter string, so [String.length name] calls suffice. *)
Fixpoint os_makedirs_fuel (fuel : nat) (name : string) : M unit :=
  match fuel with
  | O => raise RecursionError
  | S fuel' =>
      let '(head, tail) := os_path_split name in
      let '(head, tail) :=
        if str_is_empty tail then os_path_split head else (head, tail) in
      if negb (str_is_empty head) && negb (str_is_empty tail) then
        let* ex := os_path_exists head in
        if negb ex then
          except_pass CFileExistsError (os_makedirs_fuel fuel' head) ;;;
          if String.eqb tail "." then ret tt else os_mkdir name
        else os_mkdir name
      else os_mkdir name
  end.

Definition os_makedirs (name : string) : M unit :=
  os_makedirs_fuel (S (String.length name)) name.

(** [open(p, 'rb').read()] *)
Definition read_file (p : string) : M FileData :=
  trace "open(rb)" p ;;;
  let* w := get_world in
  let* cp := lift_exc (resolve w p) in
  match node_at (fs w) cp with
  | Some (File d) => ret d
  | Some (Dir _) => raise IsADirectoryError
  | None => raise FileNotFoundError
  end.

(** The entry a path names when it is opened for writing: a path with a
    trailing separator can only name a directory. *)
Definition resolve_for_writing (w : World) (p : string) : Exc + list string :=
  if endswith_slash p then
    match resolve w (strip_trailing p) with
    | inl e => inl e
    | inr _ => inl IsADirectoryError
    end
  else resolve w p.

(** [open(p, 'wb').write(d)]: creates the file or replaces its content. *)
Definition write_file (p : string) (d : FileData) : M unit :=
  trace "open(wb)" p ;;;
  let* w := get_world in
  let* cp := lift_exc (resolve_for_writing w p) in
  match node_at (fs w) cp with
  | Some (Dir _) => raise IsADirectoryError
  | _ => set_fs (put (fs w) cp (File d))
  end.

(** [os.remove(p)] *)
Definition os_remove (p : string) : M unit :=
  trace "os.remove" p ;;;
  let* w := get_world in
  let* cp := lift_exc (resolve w p) in
  match node_at (fs w) cp with
  | Some (File _) => set_fs (del (fs w) cp)
  | Some (Dir _) => raise IsADirectoryError
  | None => raise FileNotFoundError
  end.

(** The last component of a path, trailing separators ignored. *)
Definition final_component (p : string) : string :=
  last_segment (rstrip_slash p).

(** [os.rmdir(p)]: the path may not end in [.] or [..]; the directory may
    not be the root and has to be empty. *)
Definition os_rmdir (p : string) : M unit :=
  trace "os.rmdir" p ;;;
  let* w := get_world in
  let* cp := lift_exc (resolve w p) in
  if String.eqb (final_component p) "." then
    raise (OSError "Invalid argument")
  else if String.eqb (final_component p) ".." then
    raise (OSError "Directory not empty")
  else
    match node_at (fs w) cp, cp with
    | None, _ => raise FileNotFoundError
    | Some (File _), _ => raise NotADirectoryError
    | Some (Dir _), [] => raise (OSError "Device or resource busy")
    | Some (Dir (_ :: _)), _ :: _ => raise (OSError "Directory not empty")
    | Some (Dir []), _ :: _ => set_fs (del (fs w) cp)
    end.

(** [shutil.rmtree(p)]: empties the directory, then removes it with
    [os.rmdir(p)]. *)
Definition shutil_rmtree (p : string) : M unit :=
  trace "shutil.rmtree" p ;;;
  let* w := get_world in
  let* cp := lift_exc (resolve w p) in
  match node_at (fs w) cp with
  | Some (Dir _) => set_fs (put (fs w) cp (Dir [])) ;;; os_rmdir p
  | Some (File _) => raise NotADirectoryError
  | None => raise FileNotFoundError
  end.

(** [os.walk(top)]: top-down, one triple (directory path, names of its
    sub-directories, names of its files) per directory. *)
Definition dir_names (es : list (string * Node)) : list string :=
  map fst (List.filter (fun e => is_dir_node (snd e)) es).

Definition file_names (es : list (string * Node)) : list string :=
  map fst (List.filter (fun e => negb (is_dir_node (snd e))) es).

Fixpoint walk_node (top : string) (n : Node)
    : list (string * list string * list string) :=
  match n with
  | File _ => []
  | Dir es =>
      (top, dir_names es, file_names es)
      :: (fix walk_entries (l : list (string * Node)) :=
            match l with
            | [] => []
            | (name, child) :: l' =>
                walk_node (os_path_join top name) child ++ walk_entries l'
            end) es
  end.

Definition os_walk (top : string)
    : M (list (string * list string * list string)) :=
  trace "os.walk" top ;;;
  let* w := get_world in
  ret (match path_node w top with
       | Some n => walk_node top n
       | None => []
       end).

(** ** [zipfile] *)

(** [zipfile.ZipFile(p)] in read mode: the members of the archive. *)
Definition ZipFile_read (p : string) : M (list (string * FileData)) :=
  trace "zipfile.ZipFile(r)" p ;;;
  let* w := get_world in
  let* cp := lift_exc (resolve w p) in
  match node_at (fs w) cp with
  | Some (File (Zip ms)) => ret ms
  | Some (File (Raw _)) => raise BadZipFile
  | Some (Dir _) => raise IsADirectoryError
  | None => raise FileNotFoundError
  end.

Definition invalid_path_part (x : string) : bool :=
  str_is_empty x || String.eqb x "." || String.eqb x "..".

(** [ZipFile._extract_member]: the member name is made relative (no empty,
    [.] or [..] component), joined to the target directory and
    normalised; missing upper directories are created. *)
Definition extract_member (targetpath : string) (member : string * FileData)
    : M unit :=
  let '(filename, content) := member in
  let arcname :=
    join_with "/"
      (List.filter (fun x => negb (invalid_path_part x))
         (split_on slash filename)) in
  let targetpath := os_path_normpath (os_path_join targetpath arcname) in
  let upperdirs := os_path_dirname targetpath in
  (if negb (str_is_empty upperdirs) then
     let* ex := os_path_exists upperdirs in
     if negb ex then os_makedirs upperdirs else ret tt
   else ret tt) ;;;
  if endswith_slash filename then
    let* isd := os_path_isdir targetpath in
    if isd then ret tt else os_mkdir targetpath
  else write_file targetpath content.

(** [zf.extractall(path)] *)
Definition extractall (members : list (string * FileData)) (path : string)
    : M unit :=
  for_each members (extract_member path).

(** A [ZipFile] object open for writing: the file it writes to and the
    members written so far. *)
Record ZipFileW := mkZipFileW {
  zf_file : list string;
  zf_members : list (string * FileData)
}.

Definition zf_add (zf : ZipFileW) (m : string * FileData) : ZipFileW :=
  mkZipFileW (zf_file zf) (zf_members zf ++ [m]).

(** [zipfile.ZipFile(p, "w", ...)]: mode ["w"] truncates an existing file
    and starts a new archive. *)
Definition ZipFile_open_w (p : string) : M ZipFileW :=
  trace "zipfile.ZipFile(w)" p ;;;
  let* w := get_world in
  let* cp := lift_exc (resolve_for_writing w p) in
  match node_at (fs w) cp with
  | Some (Dir _) => raise IsADirectoryError
  | _ => set_fs (put (fs w) cp (File (Raw ""))) ;;; ret (mkZipFileW cp [])
  end.

(** [zf.write(filename, arcname)]: [ZipInfo.from_file] normalises the
    archive name and strips its leading separators. *)
Definition zip_write (zf : ZipFileW) (filename arcname : string)
    : M ZipFileW :=
  trace "os.stat" filename ;;;
  let* w := get_world in
  let* cp := lift_exc (resolve w filename) in
  match node_at (fs w) cp with
  | None => raise FileNotFoundError
  | Some n =>
      let name := lstrip_slash (os_path_normpath arcname) in
      if str_is_empty name then raise IndexError
      else match n with
           | Dir _ => ret (zf_add zf (name +:+ "/", Raw ""))
           | File _ =>
               let* content := read_file filename in
               ret (zf_add zf (name, content))
           end
  end.

(** [zf.writestr(zipfile.ZipInfo(name), content)]: the name is taken as it
    is; [writestr] looks at its last character. *)
Definition zip_writestr (zf : ZipFileW) (name content : string)
    : M ZipFileW :=
  if str_is_empty name then raise IndexError
  else ret (zf_add zf (name, Raw content)).

(** [zf.close()]: the file becomes the finished archive.  The object
    writes through its open handle: when the entry it created is no longer
    a regular file, no path shows what is written. *)
Definition zip_close (zf : ZipFileW) : M unit :=
  let* w := get_world in
  match node_at (fs w) (zf_file zf) with
  | Some (File _) =>
      set_fs (put (fs w) (zf_file zf) (File (Zip (zf_members zf))))
  | _ => ret tt
  end.

(** [zf.namelist()] of the archive stored at [p], if there is one. *)
Definition namelist (w : World) (p : string) : option (list string) :=
  match path_node w p with
  | Some (File (Zip ms)) => Some (map fst ms)
  | _ => None
  end.

(** ** The module [inkpy_jinja.converter] *)

(** [d[key]] *)
Definition dict_getitem (d : gmap string PyVal) (key : string)
    : Exc + PyVal :=
  match d !! key with
  | Some v => inr v
  | None => inl KeyError
  end.

(** The attributes of a [dict] object are its methods; its keys are not
    attributes. *)
Definition dict_attributes : list string :=
  ["clear"; "copy"; "fromkeys"; "get"; "items"; "keys"; "pop"; "popitem";
   "setdefault"; "update"; "values"].

(** [getattr(d, name, default)] for a [dict] [d] and a public name *)
Definition getattr_dict (d : gmap string PyVal) (name : string)
    (dflt : PyVal) : PyVal :=
  if existsb (String.eqb name) dict_attributes
  then PyObj true ("<built-in method " +:+ name +:+ " of dict object>")
  else dflt.

(** [v.split('-')[0]] *)
Definition py_split_dash_first (v : PyVal) : Exc + PyVal :=
  match v with
  | PyStr s => inr (PyStr (first_segment "-"%char s))
  | _ => inl AttributeError
  end.

(** A backend class is called with [output_path] and [input_path] and
    gives an object with a [render()] method; the object is identified
    with that method. *)
Definition Backend : Type := M unit.
Definition BackendClass : Type := string -> string -> Backend.

Record Converter := mkConverter {
  source_file : string;
  output_path : string;
  data : gmap string PyVal;
  tmp_dir_master : PyVal;
  tmp_dir : string;
  tmp_odt : string;
  lang_code : PyVal;
  backend : Backend
}.

(** The assignments [self.lang_code = v] and [self.backend = b] *)
Definition assign_lang_code (self : Converter) (v : PyVal) : Converter :=
  mkConverter (source_file self) (output_path self) (data self)
    (tmp_dir_master self) (tmp_dir self) (tmp_odt self) v (backend self).

Definition assign_backend (self : Converter) (b : Backend) : Converter :=
  mkConverter (source_file self) (output_path self) (data self)
    (tmp_dir_master self) (tmp_dir self) (tmp_odt self) (lang_code self) b.

(** [trim_path], the function nested in [zip_dir]; [parentDir] and
    [dirToZip] are the variables it closes over. *)
Definition trim_path (parentDir dirToZip path : string) : string :=
  let archive_path := replace_first parentDir "" path in
  let archive_path :=
    if negb (str_is_empty parentDir)
    then replace_first (dirToZip +:+ "/") "" archive_path
    else archive_path in
  os_path_normcase archive_path.

(** [zip_dir(self, dir_path, zip_file_path)]; a missing or empty
    [zip_file_path] is replaced by [dir_path + ".zip"]. *)
Definition zip_dir (dir_path : string) (zip_file_path : option string)
    : M unit :=
  let zip_file_path :=
    match zip_file_path with
    | Some z => if str_is_empty z then dir_path +:+ ".zip" else z
    | None => dir_path +:+ ".zip"
    end in
  let* isd := os_path_isdir dir_path in
  if negb isd then
    raise (OSError ("dir_path argument must point to a directory. '"
                    +:+ dir_path +:+ "' does not."))
  else
    let '(parentDir, dirToZip) := os_path_split dir_path in
    let* out_file := ZipFile_open_w zip_file_path in
    let* triples := os_walk dir_path in
    let* out_file :=
      fold_each triples
        (fun out_file '(archiveDir_path, dirNames, fileNames) =>
           let* out_file :=
             fold_each fileNames
               (fun out_file fileName =>
                  let file_path := os_path_join archiveDir_path fileName in
                  zip_write out_file file_path
                    (trim_path parentDir dirToZip file_path))
               out_file in
           match fileNames, dirNames with
           | [], [] =>
               zip_writestr out_file
                 (trim_path parentDir dirToZip archiveDir_path +:+ "/") ""
           | _, _ => ret out_file
           end)
        out_file in
    zip_close out_file.

Section Converter.

(** The module global [settings = {}], as the host has filled it. *)
Variable settings : gmap string PyVal.

(** [inkpy_jinja.backends.external_script.ExternalRenderer], the default
    backend class; its module is not part of the sources at hand. *)
Variable ExternalRenderer : BackendClass.

(** The template engine: the content is decoded as UTF-8, parsed by a
    [SandboxedEnvironment] and rendered with [data] as keyword
    arguments; every way this can fail is an exception. *)
Variable jinja_render : gmap string PyVal -> FileData -> Exc + string.

Definition set_lang (self : Converter) (lang_code : PyVal)
    : Exc + Converter :=
  match
    (if negb (truthy lang_code)
     then py_split_dash_first
            (getattr_dict settings "LANGUAGE_CODE" (PyStr "pl"))
     else inr lang_code)
  with
  | inr lang_code => inr (assign_lang_code self lang_code)
  | inl e => inl e
  end.

Definition __init__ (source_file output_path : string)
    (data : gmap string PyVal) (backend : option BackendClass)
    (lang_code : PyVal) : M Converter :=
  let* ex := os_path_exists source_file in
  if negb ex then raise FileDoesNotExist
  else
    let output_path_without_ext := drop_last3 source_file in
    if negb (truthy (dict_get data "id")) then raise IdDoesNotExist
    else
      let tmp_dir_master :=
        dict_get_default settings "tmp_dir" (PyStr "/tmp/INKPY") in
      let* id := lift_exc (dict_getitem data "id") in
      let tmp_dir := py_str tmp_dir_master +:+ "/" +:+ py_str id in
      let output_odt_path := output_path_without_ext +:+ "odt" in
      let tmp_odt :=
        py_str tmp_dir_master +:+ "/" +:+ last_segment output_odt_path in
      (* the attributes not assigned yet hold placeholders *)
      let self :=
        mkConverter source_file output_path data tmp_dir_master tmp_dir
          tmp_odt PyNone (raise AttributeError) in
      let* self := lift_exc (set_lang self lang_code) in
      ret (assign_backend self
             match backend with
             | None => ExternalRenderer output_path tmp_odt
             | Some cls => cls output_path tmp_odt
             end).

Definition unzip_odt (self : Converter) : M unit :=
  let* ex := os_path_exists (tmp_dir self) in
  (if negb ex then os_makedirs (tmp_dir self) else ret tt) ;;;
  let* zf := ZipFile_read (source_file self) in
  extractall zf (tmp_dir self).

Definition zip_odt (self : Converter) : M unit :=
  zip_dir (tmp_dir self) (Some (tmp_odt self)).

Definition _jinja_renderer (self : Converter) (file_content : FileData)
    : M string :=
  lift_exc (jinja_render (data self) file_content).

(** [_render], the function nested in [render] *)
Definition _render (self : Converter) (file_name : string) : M unit :=
  let* content := read_file file_name in
  let* new_content := _jinja_renderer self content in
  write_file file_name (Raw new_content).

Definition render (self : Converter) : M unit :=
  let content_xml := tmp_dir self +:+ "/content.xml" in
  let styles_xml := tmp_dir self +:+ "/styles.xml" in
  _render self content_xml ;;;
  _render self styles_xml.

Definition to_pdf (self : Converter) : M unit := backend self.

Definition remove_tmp (self : Converter) : M unit :=
  shutil_rmtree (tmp_dir self) ;;;
  os_remove (tmp_odt self).

Definition _convert (self : Converter) : M unit :=
  unzip_odt self ;;;
  render self ;;;
  zip_odt self ;;;
  to_pdf self ;;;
  remove_tmp self.

Definition convert (self : Converter) : M unit := _convert self.

End Converter.

(** ** Notions used in the statements *)

(** [c in s] *)
Fixpoint has_char (c : ascii) (s : string) : bool :=
  match s with
  | EmptyString => false
  | String x s' => ascii_eqb x c || has_char c s'
  end.

(** The file name of the intermediate archive, as [__init__] computes
    it from the source path. *)
Definition tmp_odt_name (source_file : string) : string :=
  last_segment (drop_last3 source_file +:+ "odt").

(** The base name of the source file without its extension, and the
    number of characters of that extension (the dot not counted), both in
    the sense of [os.path.splitext]. *)
Definition basename_without_ext (source_file : string) : string :=
  fst (splitext_name (os_path_basename source_file)).

Definition extension_length (source_file : string) : nat :=
  String.length
    (str_drop 1 (snd (splitext_name (os_path_basename source_file)))).

(** The world after one more logged call. *)
Definition logged (w : World) (c : IOCall) : World :=
  mkWorld (fs w) (cwd w) (log w ++ [c]).

(** [sub t t']: every path of [t] is a path of [t'], of the same kind. *)
Definition sub (t t' : Node) : Prop :=
  forall cp k, kind_at t cp = Some k -> kind_at t' cp = Some k.

(** The calls that take something away from the file system. *)
Definition is_removal (c : IOCall) : bool :=
  match c with
  | Call fn _ =>
      String.eqb fn "shutil.rmtree" || String.eqb fn "os.remove"
      || String.eqb fn "os.rmdir"
  end.

(** [extends w w']: from [w] to [w'] nothing was removed or turned into
    something else, the working directory is the same and no removing call
    was made. *)
Definition extends (w w' : World) : Prop :=
  sub (fs w) (fs w') /\ cwd w' = cwd w /\
  exists l, log w' = log w ++ l /\
            forallb (fun c => negb (is_removal c)) l = true.

(** [keeps m]: however [m] ends, the world it leaves extends the world it
    started from. *)
Definition keeps {A : Type} (m : M A) : Prop :=
  forall w r w', m w = (r, w') -> extends w w'.

(** [shrinks w w']: the tree of [w'] has nothing that [w] had not. *)
Definition shrinks (w w' : World) : Prop :=
  sub (fs w') (fs w) /\ cwd w' = cwd w.

(** [nothing_removed w w']: every path that names something in [w] still
    does in [w'], and no removing call was made in between. *)
Definition nothing_removed (w w' : World) : Prop :=
  (forall p, exists_b w p = true -> exists_b w' p = true) /\
  exists l, log w' = log w ++ l /\
            forallb (fun c => negb (is_removal c)) l = true.

(** ** Sample requests

    A host with a home directory that holds a template [report.odt], a
    template [broken.odt] whose [content.xml] is no valid template, and a
    directory [ab.] with a template named [ab]; [/tmp] is empty. *)

Definition demo_odt : FileData :=
  Zip [("mimetype", Raw "application/vnd.oasis.opendocument.text");
       ("content.xml", Raw "Hello {{name}}");
       ("styles.xml", Raw "<styles/>");
       ("Configurations2/", Raw "");
       ("META-INF/manifest.xml", Raw "<manifest/>")].

Definition broken_odt : FileData :=
  Zip [("content.xml", Raw "{% endfor %}"); ("styles.xml", Raw "<styles/>")].

Definition demo_fs : Node :=
  Dir [("home", Dir [("report.odt", File demo_odt);
                     ("broken.odt", File broken_odt);
                     ("ab.", Dir [("ab", File demo_odt)])]);
       ("tmp", Dir [])].

Definition demo_world : World := mkWorld demo_fs ["home"] [].

Definition demo_data : gmap string PyVal :=
  <["id" := PyStr "42"]> (<["name" := PyStr "World"]> ∅).

(** A template engine that knows one placeholder and one syntax error. *)
Definition demo_jinja (data : gmap string PyVal) (content : FileData)
    : Exc + string :=
  match content with
  | Raw s =>
      if startswith "{%" s then inl (External "TemplateSyntaxError")
      else inr (replace_first "{{name}}" (py_str (dict_get data "name")) s)
  | Zip _ => inl (External "UnicodeDecodeError")
  end.

(** A backend that reads the archive and writes the output file. *)
Definition demo_backend : BackendClass :=
  fun output_path input_path =>
    ZipFile_read input_path ;;; write_file output_path (Raw "%PDF").

(** The object [Converter(source, "out.pdf", demo_data)] with empty
    [settings]. *)
Definition demo_converter (source : string) : Converter :=
  mkConverter source "out.pdf" demo_data (PyStr "/tmp/INKPY")
    "/tmp/INKPY/42" ("/tmp/INKPY/" +:+ tmp_odt_name source) (PyStr "pl")
    (demo_backend "out.pdf" ("/tmp/INKPY/" +:+ tmp_odt_name source)).

(** The temp root after extraction and rendering of [report.odt], with
    whatever else ([stale]) lies in it. *)
Definition unpacked_fs (stale : list (string * Node)) : Node :=
  Dir [("tmp",
        Dir [("INKPY",
              Dir (("42", Dir [("content.xml", File (Raw "Hello World"));
                               ("styles.xml", File (Raw "<styles/>"));
                               ("Configurations2", Dir []);
                               ("META-INF",
                                Dir [("manifest.xml",
                                      File (Raw "<manifest/>"))])])
                   :: stale))])].

Definition unpacked_world (stale : list (string * Node)) : World :=
  mkWorld (unpacked_fs stale) [] [].

(** ** Further notions used in the statements *)

(** The archive [zip_dir] writes: [zip_file_path], or [dir_path + ".zip"]
    when that is missing or empty. *)
Definition zip_target (dir_path : string) (zip_file_path : option string)
    : string :=
  match zip_file_path with
  | Some z => if str_is_empty z then dir_path +:+ ".zip" else z
  | None => dir_path +:+ ".zip"
  end.

(** [reads m]: however [m] ends, the tree and the working directory are
    the ones it started from. *)
Definition reads {A : Type} (m : M A) : Prop :=
  forall w r w', m w = (r, w') -> fs w' = fs w /\ cwd w' = cwd w.

(** The two kinds of member [zip_dir] stores: a file under a name without
    a leading separator, or an empty entry whose name ends with a
    separator (an empty directory). *)
Definition file_member (m : string * FileData) : Prop :=
  startswith "/" (fst m) = false.

Definition directory_member (m : string * FileData) : Prop :=
  endswith_slash (fst m) = true /\ snd m = Raw "".

(** The number of members one triple of [os.walk] gives rise to in
    [zip_dir]: one per file name, and one for a directory without files
    and sub-directories. *)
Definition triple_members (t : string * list string * list string) : nat :=
  let '(_, dirNames, fileNames) := t in
  length fileNames +
  match fileNames, dirNames with
  | [], [] => 1
  | _, _ => 0
  end.

Definition triples_members
    (ts : list (string * list string * list string)) : nat :=
  list_sum (map triple_members ts).

(** The regular files and the empty directories at or below a node. *)
Fixpoint files_below (n : Node) : nat :=
  match n with
  | File _ => 1
  | Dir es =>
      (fix go (l : list (string * Node)) : nat :=
         match l with
         | [] => 0
         | (_, child) :: l' => files_below child + go l'
         end) es
  end.

Fixpoint empty_dirs_below (n : Node) : nat :=
  match n with
  | File _ => 0
  | Dir [] => 1
  | Dir es =>
      (fix go (l : list (string * Node)) : nat :=
         match l with
         | [] => 0
         | (_, child) :: l' => empty_dirs_below child + go l'
         end) es
  end.

(** Induction on trees. *)
Fixpoint Node_induction (P : Node -> Prop)
    (Hfile : forall d, P (File d))
    (Hdir : forall es, Forall (fun e => P (snd e)) es -> P (Dir es))
    (n : Node) : P n :=
  match n with
  | File d => Hfile d
  | Dir es =>
      Hdir es
        ((fix go (l : list (string * Node)) : Forall (fun e => P (snd e)) l :=
            match l with
            | [] => List.Forall_nil _
            | e :: l' =>
                List.Forall_cons _ e l'
                  (Node_induction P Hfile Hdir (snd e)) (go l')
            end) es)
  end.

(** Two hosts' templates of the same name, in different directories. *)
Definition two_dirs_world : World :=
  mkWorld (Dir [("srv", Dir [("a", Dir [("report.odt", File demo_odt)]);
                             ("b", Dir [("report.odt", File demo_odt)])]);
               ("tmp", Dir [])])
    [] [].

(** * Properties *)

(** ** [os.path] on examples *)

Example split_on_ex : split_on slash "/tmp/INKPY/42" = [""; "tmp"; "INKPY"; "42"].
Proof. reflexivity. Qed.
Example os_path_split_ex1 : os_path_split "/tmp/INKPY/42" = ("/tmp/INKPY", "42").
Proof. reflexivity. Qed.
Example os_path_split_ex2 : os_path_split "/42" = ("/", "42").
Proof. reflexivity. Qed.
Example os_path_split_ex3 : os_path_split "a//b/" = ("a//b", "").
Proof. reflexivity. Qed.
Example os_path_split_ex4 : os_path_split "name" = ("", "name").
Proof. reflexivity. Qed.
Example normpath_ex1 : os_path_normpath "/a/./b//../c" = "/a/c".
Proof. reflexivity. Qed.
Example normpath_ex2 : os_path_normpath "//content.xml" = "//content.xml".
Proof. reflexivity. Qed.
Example normpath_ex3 : os_path_normpath "../a/.." = "..".
Proof. reflexivity. Qed.
Example splitext_ex1 : os_path_splitext "a/report.docx" = ("a/report", ".docx").
Proof. reflexivity. Qed.
Example splitext_ex2 : os_path_splitext ".bashrc" = (".bashrc", "").
Proof. reflexivity. Qed.
Example replace_first_ex : replace_first "42/" "" "/42/a/42/b" = "/a/42/b".
Proof. reflexivity. Qed.
Example drop_last3_ex : drop_last3 "ab" = "".
Proof. reflexivity. Qed.


(** ** Association lists *)

Lemma assoc_put_eq {A : Type} k (v : A) l : assoc k (assoc_put k v l) = Some v.
Proof.
  induction l as [|[k' v'] l IH]; simpl.
  - by rewrite String.eqb_refl.
  - destruct (String.eqb k k') eqn:E; simpl.
    + by rewrite String.eqb_refl.
    + by rewrite E.
Qed.

Lemma assoc_put_ne {A : Type} k k' (v : A) l :
  k <> k' -> assoc k' (assoc_put k v l) = assoc k' l.
Proof.
  intros Hne. induction l as [|[k0 v0] l IH]; simpl.
  - destruct (String.eqb k' k) eqn:E; [|done].
    apply String.eqb_eq in E. congruence.
  - destruct (String.eqb k k0) eqn:E; simpl.
    + apply String.eqb_eq in E. subst k0.
      destruct (String.eqb k' k) eqn:E'; [|done].
      apply String.eqb_eq in E'. congruence.
    + by rewrite IH.
Qed.

Lemma assoc_del_eq {A : Type} k (l : list (string * A)) :
  assoc k (assoc_del k l) = None.
Proof.
  induction l as [|[k' v'] l IH]; simpl; [done|].
  destruct (String.eqb k k') eqn:E; simpl; [done|]. by rewrite E.
Qed.

Lemma assoc_del_ne {A : Type} k k' (l : list (string * A)) :
  k <> k' -> assoc k' (assoc_del k l) = assoc k' l.
Proof.
  intros Hne. induction l as [|[k0 v0] l IH]; simpl; [done|].
  destruct (String.eqb k k0) eqn:E; simpl.
  - apply String.eqb_eq in E. subst k0.
    destruct (String.eqb k' k) eqn:E'; [|done].
    apply String.eqb_eq in E'. congruence.
  - by rewrite IH.
Qed.

(** ** Trees: one tree extends another *)

Lemma sub_refl t : sub t t.
Proof. by intros cp k. Qed.

Lemma sub_trans t1 t2 t3 : sub t1 t2 -> sub t2 t3 -> sub t1 t3.
Proof. intros H1 H2 cp k H. by apply H2, H1. Qed.

Lemma kind_at_cons es c cp :
  kind_at (Dir es) (c :: cp) =
  match assoc c es with Some child => kind_at child cp | None => None end.
Proof. unfold kind_at. simpl. by destruct (assoc c es). Qed.

Lemma kind_at_file d c cp : kind_at (File d) (c :: cp) = None.
Proof. reflexivity. Qed.

Lemma sub_file d d' : sub (File d) (File d').
Proof. intros [|c cp] k; [done|]. by rewrite kind_at_file. Qed.

Lemma sub_empty_dir es : sub (Dir []) (Dir es).
Proof. intros [|c cp] k; [done|]. by rewrite kind_at_cons. Qed.

(** Storing a node that extends the old one gives a tree that extends the
    old tree. *)
Lemma put_sub_r t cp n :
  (forall old, node_at t cp = Some old -> sub old n) -> sub t (put t cp n).
Proof.
  revert t. induction cp as [|c cp IH]; intros t Hold; simpl.
  - by apply Hold.
  - destruct t as [d|es]; [apply sub_refl|].
    destruct (assoc c es) as [child|] eqn:Hc.
    + intros [|c' cp'] k Hk; [done|].
      rewrite kind_at_cons in Hk. rewrite kind_at_cons.
      destruct (decide (c = c')) as [->|Hne].
      * rewrite assoc_put_eq. rewrite Hc in Hk.
        eapply IH; [|done]. intros old Ho. apply Hold. simpl. by rewrite Hc.
      * by rewrite assoc_put_ne.
    + destruct cp as [|c2 cp]; [|apply sub_refl].
      intros [|c' cp'] k Hk; [done|].
      rewrite kind_at_cons in Hk. rewrite kind_at_cons.
      destruct (decide (c = c')) as [->|Hne].
      * by rewrite Hc in Hk.
      * by rewrite assoc_put_ne.
Qed.

(** Storing a node that the old one extends gives a tree that the old
    tree extends. *)
Lemma put_sub_l t cp n old :
  node_at t cp = Some old -> sub n old -> sub (put t cp n) t.
Proof.
  revert t. induction cp as [|c cp IH]; intros t Hold Hsub; simpl in *.
  - by simplify_eq.
  - destruct t as [d|es]; [done|].
    destruct (assoc c es) as [child|] eqn:Hc; [|done].
    intros [|c' cp'] k Hk; [done|].
    rewrite kind_at_cons in Hk. rewrite kind_at_cons.
    destruct (decide (c = c')) as [->|Hne].
    + rewrite assoc_put_eq in Hk. rewrite Hc. by eapply IH.
    + by rewrite assoc_put_ne in Hk.
Qed.

Lemma del_sub t cp : sub (del t cp) t.
Proof.
  revert t. induction cp as [|c cp IH]; intros t; simpl; [apply sub_refl|].
  destruct t as [d|es]; [apply sub_refl|].
  destruct cp as [|c2 cp].
  - intros [|c' cp'] k Hk; [done|].
    rewrite kind_at_cons in Hk. rewrite kind_at_cons.
    destruct (decide (c = c')) as [->|Hne].
    + by rewrite assoc_del_eq in Hk.
    + by rewrite assoc_del_ne in Hk.
  - destruct (assoc c es) as [child|] eqn:Hc; [|apply sub_refl].
    intros [|c' cp'] k Hk; [done|].
    rewrite kind_at_cons in Hk. rewrite kind_at_cons.
    destruct (decide (c = c')) as [->|Hne].
    + rewrite assoc_put_eq in Hk. rewrite Hc. by eapply IH.
    + by rewrite assoc_put_ne in Hk.
Qed.

Lemma del_gone t cp : cp <> [] -> node_at (del t cp) cp = None.
Proof.
  revert t. induction cp as [|c cp IH]; intros t Hne; [done|]. simpl.
  destruct t as [d|es]; [done|].
  destruct cp as [|c2 cp].
  - simpl. by rewrite assoc_del_eq.
  - destruct (assoc c es) as [child|] eqn:Hc.
    + cbn [node_at]. rewrite assoc_put_eq. by apply IH.
    + cbn [node_at]. by rewrite Hc.
Qed.

(** ** Path resolution in an extended tree *)

Lemma resolve_step_sub t t' cur c cp :
  sub t t' -> resolve_step t cur c = inr cp -> resolve_step t' cur c = inr cp.
Proof.
  intros Hsub. unfold resolve_step.
  destruct (kind_at t cur) as [[|]|] eqn:E; intros H; try done.
  by rewrite (Hsub _ _ E).
Qed.

Lemma resolve_from_sub t t' comps cur cp :
  sub t t' -> resolve_from t cur comps = inr cp ->
  resolve_from t' cur comps = inr cp.
Proof.
  intros Hsub. revert cur.
  induction comps as [|c cs IH]; intros cur H; simpl in *; [done|].
  destruct (resolve_step t cur c) as [e|cur'] eqn:E; [done|].
  rewrite (resolve_step_sub _ _ _ _ _ Hsub E). by apply IH.
Qed.

Lemma resolve_sub w w' p cp :
  sub (fs w) (fs w') -> cwd w' = cwd w ->
  resolve w p = inr cp -> resolve w' p = inr cp.
Proof.
  intros Hsub Hcwd. unfold resolve. destruct (str_is_empty p); [done|].
  rewrite Hcwd. by apply resolve_from_sub.
Qed.

Lemma node_at_kind t cp : is_Some (node_at t cp) <-> is_Some (kind_at t cp).
Proof.
  unfold kind_at. destruct (node_at t cp); simpl; split; intros [x Hx]; eauto; done.
Qed.

Lemma exists_b_true w p :
  exists_b w p = true <->
  exists cp k, resolve w p = inr cp /\ kind_at (fs w) cp = Some k.
Proof.
  unfold exists_b, path_node, kind_at. split.
  - destruct (resolve w p) as [e|cp]; [done|].
    destruct (node_at (fs w) cp) as [n|] eqn:E; [|done].
    intros _. exists cp, (is_dir_node n). by rewrite E.
  - intros (cp & k & -> & Hk).
    by destruct (node_at (fs w) cp).
Qed.

(** Nothing that exists in [w] is missing from a world whose tree extends
    the tree of [w]. *)
Lemma exists_b_sub w w' p :
  sub (fs w) (fs w') -> cwd w' = cwd w ->
  exists_b w p = true -> exists_b w' p = true.
Proof.
  intros Hsub Hcwd. rewrite !exists_b_true.
  intros (cp & k & Hr & Hk). exists cp, k. split.
  - by eapply resolve_sub.
  - by apply Hsub.
Qed.

(** A path that resolves to a regular file or to a missing entry names
    something below the root: the root of a world in which any path
    resolves is a directory. *)
Lemma resolve_from_root_dir t cur comps cp :
  comps <> [] -> resolve_from t cur comps = inr cp -> is_dir_node t = true.
Proof.
  destruct comps as [|c cs]; [done|]. intros _. simpl.
  unfold resolve_step, kind_at.
  destruct (node_at t cur) as [n|] eqn:E; simpl; [|done].
  destruct n as [d|es]; simpl; [done|]. intros _.
  destruct t as [d'|es']; [|done].
  destruct cur; simpl in E; done.
Qed.

Lemma split_on_nonempty sep s : split_on sep s <> [].
Proof.
  destruct s as [|c s]; simpl; [done|].
  destruct (ascii_eqb c sep); [done|]. by destruct (split_on sep s).
Qed.

Lemma resolve_root_dir w p cp : resolve w p = inr cp -> is_dir_node (fs w) = true.
Proof.
  unfold resolve. destruct (str_is_empty p); [done|].
  apply resolve_from_root_dir, split_on_nonempty.
Qed.

Lemma resolve_file_not_root w p cp d :
  resolve w p = inr cp -> node_at (fs w) cp = Some (File d) -> cp <> [].
Proof.
  intros Hr Hn ->. apply resolve_root_dir in Hr. simpl in Hn.
  injection Hn as Hn. by rewrite Hn in Hr.
Qed.

(** ** Runs that only add to the file system *)

Lemma extends_refl w : extends w w.
Proof.
  split; [apply sub_refl|]. split; [done|].
  exists []. by rewrite app_nil_r.
Qed.

Lemma extends_trans w1 w2 w3 : extends w1 w2 -> extends w2 w3 -> extends w1 w3.
Proof.
  intros (S1 & C1 & l1 & L1 & F1) (S2 & C2 & l2 & L2 & F2).
  split; [by eapply sub_trans|]. split; [congruence|].
  exists (l1 ++ l2). rewrite L2, L1, app_assoc. split; [done|].
  rewrite forallb_app. by rewrite F1, F2.
Qed.

Lemma extends_exists w w' p :
  extends w w' -> exists_b w p = true -> exists_b w' p = true.
Proof. intros (S & C & _). by apply exists_b_sub. Qed.

Lemma keeps_ret {A : Type} (a : A) : keeps (ret a).
Proof. intros w r w' [= <- <-]. apply extends_refl. Qed.

Lemma keeps_raise {A : Type} e : keeps (@raise A e).
Proof. intros w r w' [= <- <-]. apply extends_refl. Qed.

Lemma keeps_lift_exc {A : Type} (r : Exc + A) : keeps (lift_exc r).
Proof. destruct r; [apply keeps_raise | apply keeps_ret]. Qed.

Lemma keeps_get_world : keeps get_world.
Proof. intros w r w' [= <- <-]. apply extends_refl. Qed.

Lemma keeps_bind {A B : Type} (m : M A) (k : A -> M B) :
  keeps m -> (forall a, keeps (k a)) -> keeps (bind m k).
Proof.
  intros Hm Hk w r w'. unfold bind.
  destruct (m w) as [[a|e] w1] eqn:E.
  - intros H. eapply extends_trans; [by eapply Hm | by eapply Hk].
  - intros [= <- <-]. by eapply Hm.
Qed.

Lemma keeps_trace fn p : is_removal (Call fn p) = false -> keeps (trace fn p).
Proof.
  intros Hfn w r w' [= <- <-].
  split; [apply sub_refl|]. split; [done|].
  exists [Call fn p]. split; [done|]. cbn [forallb]. by rewrite Hfn.
Qed.

Lemma keeps_except_pass cls m : keeps m -> keeps (except_pass cls m).
Proof.
  intros Hm w r w'. unfold except_pass.
  destruct (m w) as [[a|e] w1] eqn:E.
  - intros [= <- <-]. by eapply Hm.
  - destruct (isinstance e cls); intros [= <- <-]; by eapply Hm.
Qed.

Lemma keeps_for_each {A : Type} (l : list A) (body : A -> M unit) :
  (forall x, keeps (body x)) -> keeps (for_each l body).
Proof.
  intros Hb. induction l as [|x l IH]; simpl.
  - apply keeps_ret.
  - apply keeps_bind; [apply Hb | by intros _].
Qed.

Lemma keeps_fold_each {A S : Type} (l : list A) (body : S -> A -> M S) s :
  (forall s x, keeps (body s x)) -> keeps (fold_each l body s).
Proof.
  intros Hb. revert s. induction l as [|x l IH]; intros s; simpl.
  - apply keeps_ret.
  - apply keeps_bind; [apply Hb | done].
Qed.

(** Storing at [cp] a node that extends the one found there. *)
Lemma set_fs_extends w cp n r w' :
  (forall old, node_at (fs w) cp = Some old -> sub old n) ->
  set_fs (put (fs w) cp n) w = (r, w') -> extends w w'.
Proof.
  intros Hold [= <- <-].
  split; [by apply put_sub_r|]. split; [done|].
  exists []. by rewrite app_nil_r.
Qed.

Lemma keeps_with_world {A : Type} (k : World -> M A) :
  (forall w r w', k w w = (r, w') -> extends w w') ->
  keeps (bind get_world k).
Proof. intros H w r w'. unfold bind, get_world. apply H. Qed.

Ltac keeps_step :=
  first
    [ apply keeps_ret
    | apply keeps_raise
    | apply keeps_lift_exc
    | apply keeps_get_world
    | apply keeps_trace; reflexivity
    | apply keeps_except_pass
    | apply keeps_for_each; intros
    | apply keeps_fold_each; intros
    | apply keeps_bind; [|intros] ].

Lemma keeps_os_path_exists p : keeps (os_path_exists p).
Proof. unfold os_path_exists. repeat keeps_step. Qed.

Lemma keeps_os_path_isdir p : keeps (os_path_isdir p).
Proof. unfold os_path_isdir. repeat keeps_step. Qed.

Lemma kind_at_None_node t cp : kind_at t cp = None -> node_at t cp = None.
Proof. unfold kind_at. by destruct (node_at t cp). Qed.

Lemma keeps_os_mkdir p : keeps (os_mkdir p).
Proof.
  unfold os_mkdir. keeps_step; [keeps_step|]. apply keeps_with_world.
  intros w r w'. unfold bind.
  destruct (resolve w (strip_trailing p)) as [e|cp]; simpl.
  - intros [= <- <-]. apply extends_refl.
  - destruct (kind_at (fs w) cp) as [k|] eqn:E.
    + intros [= <- <-]. apply extends_refl.
    + apply set_fs_extends. intros old Ho.
      apply kind_at_None_node in E. congruence.
Qed.

Lemma keeps_os_makedirs_fuel fuel name : keeps (os_makedirs_fuel fuel name).
Proof.
  revert name. induction fuel as [|fuel IH]; intros name; simpl.
  - apply keeps_raise.
  - destruct (os_path_split name) as [head tail].
    destruct (if str_is_empty tail then os_path_split head else (head, tail))
      as [head' tail'].
    destruct (negb (str_is_empty head') && negb (str_is_empty tail'));
      [|apply keeps_os_mkdir].
    apply keeps_bind; [apply keeps_os_path_exists|]. intros ex.
    destruct (negb ex); [|apply keeps_os_mkdir].
    apply keeps_bind; [apply keeps_except_pass, IH|]. intros _.
    destruct (String.eqb tail' "."); [apply keeps_ret | apply keeps_os_mkdir].
Qed.

Lemma keeps_os_makedirs name : keeps (os_makedirs name).
Proof. apply keeps_os_makedirs_fuel. Qed.

Lemma keeps_read_file p : keeps (read_file p).
Proof.
  unfold read_file. keeps_step; [keeps_step|]. apply keeps_with_world.
  intros w r w'. unfold bind.
  destruct (resolve w p) as [e|cp]; simpl.
  - intros [= <- <-]. apply extends_refl.
  - destruct (node_at (fs w) cp) as [[d|es]|];
      intros [= <- <-]; apply extends_refl.
Qed.

Lemma keeps_write_file p d : keeps (write_file p d).
Proof.
  unfold write_file. keeps_step; [keeps_step|]. apply keeps_with_world.
  intros w r w'. unfold bind.
  destruct (resolve_for_writing w p) as [e|cp]; simpl.
  - intros [= <- <-]. apply extends_refl.
  - destruct (node_at (fs w) cp) as [[d'|es]|] eqn:E.
    + apply set_fs_extends. intros old Ho. rewrite E in Ho. injection Ho as <-. apply sub_file.
    + intros [= <- <-]. apply extends_refl.
    + apply set_fs_extends. intros old Ho. by rewrite E in Ho.
Qed.

Lemma keeps_os_walk top : keeps (os_walk top).
Proof. unfold os_walk. repeat keeps_step. Qed.

Lemma keeps_ZipFile_read p : keeps (ZipFile_read p).
Proof.
  unfold ZipFile_read. keeps_step; [keeps_step|]. apply keeps_with_world.
  intros w r w'. unfold bind.
  destruct (resolve w p) as [e|cp]; simpl.
  - intros [= <- <-]. apply extends_refl.
  - destruct (node_at (fs w) cp) as [[[b|ms]|es]|];
      intros [= <- <-]; apply extends_refl.
Qed.

Lemma keeps_extract_member target m : keeps (extract_member target m).
Proof.
  unfold extract_member. destruct m as [filename content].
  apply keeps_bind.
  - destruct (negb (str_is_empty _)); [|apply keeps_ret].
    apply keeps_bind; [apply keeps_os_path_exists|]. intros ex.
    destruct (negb ex); [apply keeps_os_makedirs | apply keeps_ret].
  - intros _. destruct (endswith_slash filename); [|apply keeps_write_file].
    apply keeps_bind; [apply keeps_os_path_isdir|]. intros isd.
    destruct isd; [apply keeps_ret | apply keeps_os_mkdir].
Qed.

Lemma keeps_extractall ms path : keeps (extractall ms path).
Proof. apply keeps_for_each. intros. apply keeps_extract_member. Qed.

Lemma keeps_ZipFile_open_w p : keeps (ZipFile_open_w p).
Proof.
  unfold ZipFile_open_w. keeps_step; [keeps_step|]. apply keeps_with_world.
  intros w r w'. unfold bind.
  destruct (resolve_for_writing w p) as [e|cp]; simpl.
  - intros [= <- <-]. apply extends_refl.
  - destruct (node_at (fs w) cp) as [[d'|es]|] eqn:E.
    + intros [= <- <-]. eapply set_fs_extends; [|reflexivity].
      intros old Ho. rewrite E in Ho. injection Ho as <-. apply sub_file.
    + intros [= <- <-]. apply extends_refl.
    + intros [= <- <-]. eapply set_fs_extends; [|reflexivity].
      intros old Ho. by rewrite E in Ho.
Qed.

Lemma keeps_zip_write zf filename arcname : keeps (zip_write zf filename arcname).
Proof.
  unfold zip_write. keeps_step; [keeps_step|]. apply keeps_with_world.
  intros w r w'. unfold bind at 1.
  destruct (resolve w filename) as [e|cp]; simpl.
  - intros [= <- <-]. apply extends_refl.
  - destruct (node_at (fs w) cp) as [n|].
    + destruct (str_is_empty _).
      * intros [= <- <-]. apply extends_refl.
      * destruct n as [d|es].
        -- apply keeps_bind; [apply keeps_read_file|]. intros. apply keeps_ret.
        -- intros [= <- <-]. apply extends_refl.
    + intros [= <- <-]. apply extends_refl.
Qed.

Lemma keeps_zip_writestr zf name content : keeps (zip_writestr zf name content).
Proof.
  unfold zip_writestr.
  destruct (str_is_empty name); [apply keeps_raise | apply keeps_ret].
Qed.

Lemma keeps_zip_close zf : keeps (zip_close zf).
Proof.
  unfold zip_close. apply keeps_with_world. intros w r w'.
  destruct (node_at (fs w) (zf_file zf)) as [[d|es]|] eqn:E.
  - apply set_fs_extends. intros old Ho. rewrite E in Ho.
    injection Ho as <-. apply sub_file.
  - intros [= <- <-]. apply extends_refl.
  - intros [= <- <-]. apply extends_refl.
Qed.

Lemma keeps_zip_dir dir_path zip_file_path : keeps (zip_dir dir_path zip_file_path).
Proof.
  unfold zip_dir.
  apply keeps_bind; [apply keeps_os_path_isdir|]. intros isd.
  destruct (negb isd); [apply keeps_raise|].
  destruct (os_path_split dir_path) as [parentDir dirToZip].
  apply keeps_bind; [apply keeps_ZipFile_open_w|]. intros out_file.
  apply keeps_bind; [apply keeps_os_walk|]. intros triples.
  apply keeps_bind; [|intros; apply keeps_zip_close].
  apply keeps_fold_each. intros zf [[archiveDir_path dirNames] fileNames].
  apply keeps_bind.
  - apply keeps_fold_each. intros. apply keeps_zip_write.
  - intros zf'. destruct fileNames, dirNames;
      first [apply keeps_zip_writestr | apply keeps_ret].
Qed.

Lemma keeps_unzip_odt self : keeps (unzip_odt self).
Proof.
  unfold unzip_odt.
  apply keeps_bind; [apply keeps_os_path_exists|]. intros ex.
  apply keeps_bind.
  - destruct (negb ex); [apply keeps_os_makedirs | apply keeps_ret].
  - intros _. apply keeps_bind; [apply keeps_ZipFile_read|].
    intros. apply keeps_extractall.
Qed.

Lemma keeps_render jinja self : keeps (render jinja self).
Proof.
  assert (H : forall f, keeps (_render jinja self f)).
  { intros f. unfold _render, _jinja_renderer.
    apply keeps_bind; [apply keeps_read_file|]. intros.
    apply keeps_bind; [apply keeps_lift_exc|]. intros.
    apply keeps_write_file. }
  unfold render. apply keeps_bind; [apply H | intros; apply H].
Qed.

Lemma keeps_zip_odt self : keeps (zip_odt self).
Proof. apply keeps_zip_dir. Qed.

(** ** Removal *)

Lemma bind_Ok {A B : Type} (m : M A) (k : A -> M B) w b w' :
  bind m k w = (Ok b, w') ->
  exists a w1, m w = (Ok a, w1) /\ k a w1 = (Ok b, w').
Proof.
  unfold bind. destruct (m w) as [[a|e] w1]; [|done]. intros H. by exists a, w1.
Qed.

Lemma not_exists_sub w w' p :
  sub (fs w') (fs w) -> cwd w = cwd w' ->
  exists_b w p = false -> exists_b w' p = false.
Proof.
  intros Hsub Hcwd Hw. destruct (exists_b w' p) eqn:E; [|done].
  by rewrite (exists_b_sub w' w p Hsub Hcwd E) in Hw.
Qed.

(** After the entry a path resolves to has been deleted, the path names
    nothing. *)
Lemma del_not_exists w p cp l :
  resolve w p = inr cp -> cp <> [] ->
  exists_b (mkWorld (del (fs w) cp) (cwd w) l) p = false.
Proof.
  intros Hr Hne.
  destruct (exists_b _ p) eqn:E; [|done].
  apply exists_b_true in E as (cp' & k & Hr' & Hk). simpl in *.
  assert (Hr2 : resolve w p = inr cp').
  { eapply resolve_sub; [| |exact Hr']; simpl; [apply del_sub|done]. }
  rewrite Hr in Hr2. injection Hr2 as <-.
  unfold kind_at in Hk. by rewrite del_gone in Hk.
Qed.

Lemma set_fs_Ok t w r w' :
  set_fs t w = (r, w') -> r = Ok tt /\ w' = mkWorld t (cwd w) (log w).
Proof. by intros [= <- <-]. Qed.

Lemma os_remove_Ok p w w' :
  os_remove p w = (Ok tt, w') -> exists_b w' p = false /\ shrinks w w'.
Proof.
  unfold os_remove, bind, trace, get_world. simpl.
  destruct (resolve _ p) as [e|cp] eqn:Hr; simpl; [done|].
  destruct (node_at (fs w) cp) as [[d|es]|] eqn:Hn; try done.
  intros H. apply set_fs_Ok in H as [_ ->]. split.
  - refine (del_not_exists _ p cp _ Hr _).
    exact (resolve_file_not_root _ _ _ _ Hr Hn).
  - split; [apply del_sub | done].
Qed.

Lemma os_rmdir_Ok p w w' :
  os_rmdir p w = (Ok tt, w') -> exists_b w' p = false /\ shrinks w w'.
Proof.
  unfold os_rmdir, bind, trace, get_world. simpl.
  destruct (resolve _ p) as [e|cp] eqn:Hr; simpl; [done|].
  destruct (String.eqb (final_component p) "."); [done|].
  destruct (String.eqb (final_component p) ".."); [done|].
  destruct (node_at (fs w) cp) as [[d|[|e es]]|] eqn:Hn;
    destruct cp as [|c cp]; try done.
  intros H. apply set_fs_Ok in H as [_ ->]. split.
  - by refine (del_not_exists _ p (c :: cp) _ Hr _).
  - split; [apply del_sub | done].
Qed.

Lemma shutil_rmtree_Ok p w w' :
  shutil_rmtree p w = (Ok tt, w') -> exists_b w' p = false /\ shrinks w w'.
Proof.
  unfold shutil_rmtree, bind at 1 2 3, trace, get_world. simpl.
  destruct (resolve _ p) as [e|cp] eqn:Hr; simpl; [done|].
  destruct (node_at (fs w) cp) as [[d|es]|] eqn:Hn; try done.
  unfold bind, set_fs. simpl. intros H.
  apply os_rmdir_Ok in H as [Hgone [Hsub Hcwd]]. simpl in *.
  split; [done|]. split; [|done].
  eapply sub_trans; [exact Hsub|].
  eapply put_sub_l; [exact Hn | apply sub_empty_dir].
Qed.

Lemma remove_tmp_Ok self w w' :
  remove_tmp self w = (Ok tt, w') ->
  exists_b w' (tmp_dir self) = false /\ exists_b w' (tmp_odt self) = false.
Proof.
  unfold remove_tmp. intros H.
  apply bind_Ok in H as ([] & w1 & H1 & H2).
  apply shutil_rmtree_Ok in H1 as [Hd _].
  apply os_remove_Ok in H2 as [Ho [Hsub Hcwd]].
  split; [|done]. by apply (not_exists_sub w1 w').
Qed.

(** ** Strings *)

Lemma str_app_nil_l s : "" +:+ s = s.
Proof. reflexivity. Qed.

Lemma str_app_cons c a b : String c a +:+ b = String c (a +:+ b).
Proof. reflexivity. Qed.

Lemma str_app_nil_r s : s +:+ "" = s.
Proof. induction s as [|c s IH]; [done|]. by rewrite str_app_cons, IH. Qed.

Lemma str_app_assoc a b c : (a +:+ b) +:+ c = a +:+ (b +:+ c).
Proof. induction a as [|x a IH]; [done|]. by rewrite !str_app_cons, IH. Qed.

Lemma str_length_app a b :
  String.length (a +:+ b) = String.length a + String.length b.
Proof. induction a as [|x a IH]; [done|]. rewrite str_app_cons. simpl. by rewrite IH. Qed.

Lemma str_take_app a b n :
  str_take (String.length a + n) (a +:+ b) = a +:+ str_take n b.
Proof. induction a as [|x a IH]; [done|]. rewrite !str_app_cons. simpl. by rewrite IH. Qed.

Lemma str_take_length n s : String.length (str_take n s) = Nat.min n (String.length s).
Proof.
  revert s. induction n as [|n IH]; intros [|c s]; simpl; try done.
  by rewrite IH.
Qed.

Lemma has_char_app c a b : has_char c (a +:+ b) = has_char c a || has_char c b.
Proof.
  induction a as [|x a IH]; [done|]. rewrite str_app_cons. simpl.
  by rewrite IH, orb_assoc.
Qed.

Lemma has_char_take c n s : has_char c s = false -> has_char c (str_take n s) = false.
Proof.
  revert s. induction n as [|n IH]; intros [|x s]; simpl; try done.
  intros [H1 H2]%orb_false_elim. by rewrite H1, IH.
Qed.

Lemma split_on_no_sep sep s : has_char sep s = false -> split_on sep s = [s].
Proof.
  induction s as [|c s IH]; simpl; [done|].
  intros [H1 H2]%orb_false_elim. rewrite H1. by rewrite IH.
Qed.

Lemma split_on_app sep a b :
  split_on sep (a +:+ String sep b) = split_on sep a ++ split_on sep b.
Proof.
  induction a as [|c a IH].
  - simpl. unfold ascii_eqb. by rewrite Ascii.eqb_refl.
  - rewrite str_app_cons. simpl. destruct (ascii_eqb c sep).
    + by rewrite IH.
    + rewrite IH. destruct (split_on sep a) eqn:E; [|done].
      by apply split_on_nonempty in E.
Qed.

Lemma last_segment_no_slash s : has_char slash s = false -> last_segment s = s.
Proof. intros H. unfold last_segment. by rewrite split_on_no_sep. Qed.

Lemma last_segment_app a b :
  has_char slash b = false -> last_segment (a +:+ String slash b) = b.
Proof.
  intros H. unfold last_segment. rewrite split_on_app.
  rewrite (split_on_no_sep _ b) by done.
  apply last_last.
Qed.

(** [os.path.split] cuts after the last separator. *)
Lemma cut_last_slash_spec s :
  has_char slash (snd (cut_last_slash s)) = false /\
  ((fst (cut_last_slash s) = "" /\ s = snd (cut_last_slash s)) \/
   exists h, fst (cut_last_slash s) = h +:+ "/" /\
             s = h +:+ String slash (snd (cut_last_slash s))).
Proof.
  induction s as [|c s IH]; simpl.
  - split; [done|]. by left.
  - destruct (cut_last_slash s) as [h t]. simpl in IH.
    destruct IH as [Ht [[-> ->]|(h' & -> & ->)]]; simpl.
    + destruct (ascii_eqb c slash) eqn:Ec; simpl.
      * split; [done|]. right. exists "".
        apply Ascii.eqb_eq in Ec. by subst c.
      * rewrite Ec, Ht. split; [done|]. by left.
    + destruct (str_is_empty (h' +:+ "/")) eqn:Ee.
      { by destruct h'. }
      simpl. split; [done|]. right. by exists (String c h').
Qed.

(** The name taken for the intermediate archive when the last segment of
    the source path has at least three characters. *)
Lemma last_segment_drop_last3 s :
  3 <= String.length (os_path_basename s) ->
  last_segment (drop_last3 s +:+ "odt") =
  drop_last3 (os_path_basename s) +:+ "odt".
Proof.
  unfold os_path_basename.
  destruct (cut_last_slash_spec s) as [Ht Hs].
  set (b := snd (cut_last_slash s)) in *. intros Hlen.
  assert (Hno : has_char slash (drop_last3 b +:+ "odt") = false).
  { rewrite has_char_app. unfold drop_last3. by rewrite has_char_take. }
  destruct Hs as [[_ Hs]|(h & _ & Hs)].
  - rewrite Hs. by apply last_segment_no_slash.
  - rewrite Hs at 1. unfold drop_last3 at 1.
    rewrite str_length_app. simpl String.length.
    replace (String.length h + S (String.length b) - 3)
      with (String.length h + (1 + (String.length b - 3))) by lia.
    rewrite str_take_app. simpl str_take.
    rewrite str_app_assoc, str_app_cons.
    by apply last_segment_app.
Qed.

Lemma cut_last_dot_spec b :
  fst (cut_last_dot b) +:+ snd (cut_last_dot b) = b /\
  (snd (cut_last_dot b) = "" \/
   exists e, snd (cut_last_dot b) = String "."%char e).
Proof.
  induction b as [|c b IH]; simpl.
  - split; [done|]. by left.
  - destruct (cut_last_dot b) as [r e]. simpl in IH. destruct IH as [Hb He].
    destruct (str_is_empty e) eqn:Ee.
    + destruct e; [|done]. rewrite str_app_nil_r in Hb. subst r.
      destruct (ascii_eqb c ".") eqn:Ec; simpl.
      * split; [done|]. right. apply Ascii.eqb_eq in Ec. subst c. by exists b.
      * rewrite str_app_nil_r. split; [done|]. by left.
    + simpl. rewrite str_app_cons, Hb. split; [done|].
      destruct He as [->|He]; [done|]. by right.
Qed.

Lemma splitext_name_spec b :
  fst (splitext_name b) +:+ snd (splitext_name b) = b /\
  (snd (splitext_name b) = "" \/
   exists e, snd (splitext_name b) = String "."%char e).
Proof.
  unfold splitext_name. destruct (cut_last_dot_spec b) as [Hb He].
  destruct (cut_last_dot b) as [r e]. simpl in *.
  destruct (str_is_empty e || only_dots r); simpl.
  - rewrite str_app_nil_r. split; [done|]. by left.
  - done.
Qed.

Lemma tmp_odt_name_ext3 s :
  extension_length s = 3 -> tmp_odt_name s = basename_without_ext s +:+ ".odt".
Proof.
  unfold extension_length, basename_without_ext, tmp_odt_name.
  destruct (splitext_name_spec (os_path_basename s)) as [Hb He].
  set (r := fst (splitext_name (os_path_basename s))) in *.
  set (e := snd (splitext_name (os_path_basename s))) in *.
  intros Hlen.
  destruct He as [He|[e' He]]; rewrite He in Hlen; [done|]. simpl in Hlen.
  assert (Hbl : String.length (os_path_basename s) = String.length r + 4).
  { rewrite <- Hb, str_length_app, He. simpl. lia. }
  rewrite last_segment_drop_last3 by lia.
  unfold drop_last3. rewrite Hbl.
  replace (String.length r + 4 - 3) with (String.length r + 1) by lia.
  rewrite <- Hb, str_take_app, He. simpl str_take.
  by rewrite str_app_assoc.
Qed.

Lemma tmp_odt_name_ext3_only s :
  3 <= String.length (os_path_basename s) ->
  tmp_odt_name s = basename_without_ext s +:+ ".odt" ->
  extension_length s = 3.
Proof.
  unfold extension_length, basename_without_ext, tmp_odt_name.
  destruct (splitext_name_spec (os_path_basename s)) as [Hb He].
  set (r := fst (splitext_name (os_path_basename s))) in *.
  set (e := snd (splitext_name (os_path_basename s))) in *.
  intros Hlen Heq. rewrite last_segment_drop_last3 in Heq by done.
  apply (f_equal String.length) in Heq.
  rewrite !str_length_app in Heq. unfold drop_last3 in Heq.
  rewrite str_take_length in Heq. simpl in Heq.
  assert (Hbl : String.length (os_path_basename s)
                = String.length r + String.length e).
  { by rewrite <- Hb, str_length_app. }
  destruct He as [He|[e' He]]; rewrite He in *; simpl in *; lia.
Qed.

(** ** The sample requests run *)
Example demo_init :
  __init__ ∅ demo_backend "report.odt" "out.pdf" demo_data None PyNone demo_world
  = (Ok (demo_converter "report.odt"),
     logged demo_world (Call "os.path.exists" "report.odt")).
Proof. vm_compute. reflexivity. Qed.

Example demo_convert_ok :
  fst (convert demo_jinja (demo_converter "report.odt") demo_world) = Ok tt.
Proof. vm_compute. reflexivity. Qed.

Example demo_convert_fs :
  fs (snd (convert demo_jinja (demo_converter "report.odt") demo_world))
  = Dir [("home", Dir [("report.odt", File demo_odt);
                     ("broken.odt", File broken_odt);
                     ("ab.", Dir [("ab", File demo_odt)]);
                     ("out.pdf", File (Raw "%PDF"))]);
       ("tmp", Dir [("INKPY", Dir [])])].
Proof. vm_compute. reflexivity. Qed.

Lemma extends_nothing_removed w w' : extends w w' -> nothing_removed w w'.
Proof.
  intros H. split.
  - intros p. by apply extends_exists.
  - by destruct H as (_ & _ & Hl).
Qed.

Lemma bind_Raise_l {A B : Type} (m : M A) (k : A -> M B) w e w' :
  m w = (Raise e, w') -> bind m k w = (Raise e, w').
Proof. unfold bind. by intros ->. Qed.

Lemma bind_Ok_l {A B : Type} (m : M A) (k : A -> M B) w a w' :
  m w = (Ok a, w') -> bind m k w = k a w'.
Proof. unfold bind. by intros ->. Qed.

(** ** The constructor *)

Lemma exists_b_logged w c p : exists_b (logged w c) p = exists_b w p.
Proof. reflexivity. Qed.

Lemma init_source_absent settings ER src out data backend lang w :
  exists_b w src = false ->
  __init__ settings ER src out data backend lang w
  = (Raise FileDoesNotExist, logged w (Call "os.path.exists" src)).
Proof.
  intros H. unfold __init__, bind, os_path_exists, trace, get_world, ret.
  simpl. fold (logged w (Call "os.path.exists" src)).
  by rewrite exists_b_logged, H.
Qed.

Lemma init_id_falsy settings ER src out data backend lang w :
  exists_b w src = true -> truthy (dict_get data "id") = false ->
  __init__ settings ER src out data backend lang w
  = (Raise IdDoesNotExist, logged w (Call "os.path.exists" src)).
Proof.
  intros H Hid. unfold __init__, bind, os_path_exists, trace, get_world, ret.
  simpl. fold (logged w (Call "os.path.exists" src)).
  by rewrite exists_b_logged, H, Hid.
Qed.

Lemma init_Ok settings ER src out data backend lang w self w' :
  __init__ settings ER src out data backend lang w = (Ok self, w') ->
  exists_b w src = true /\
  (exists v, data !! "id" = Some v /\ truthy v = true /\
     tmp_dir self
     = py_str (dict_get_default settings "tmp_dir" (PyStr "/tmp/INKPY"))
       +:+ "/" +:+ py_str v) /\
  tmp_odt self
  = py_str (dict_get_default settings "tmp_dir" (PyStr "/tmp/INKPY"))
    +:+ "/" +:+ tmp_odt_name src /\
  w' = logged w (Call "os.path.exists" src).
Proof.
  unfold __init__, bind, os_path_exists, trace, get_world, ret.
  simpl. fold (logged w (Call "os.path.exists" src)).
  rewrite exists_b_logged. destruct (exists_b w src); simpl; [|done].
  unfold dict_get, dict_getitem.
  destruct (data !! "id") as [v|] eqn:Ev; simpl; [|done].
  destruct (truthy v) eqn:Tv; simpl; [|done].
  unfold raise. destruct (set_lang _ _ _) as [e|self'] eqn:Es; simpl; [done|].
  intros [= <- <-]. split; [done|].
  unfold set_lang in Es.
  destruct (if negb (truthy lang) then _ else _) as [e|lc]; [done|].
  injection Es as <-. simpl. split; [by exists v | done].
Qed.

(** ** Repacking *)

Lemma startswith_app p s : startswith p (p +:+ s) = true.
Proof.
  induction p as [|c p IH]; [done|]. rewrite str_app_cons. simpl.
  unfold ascii_eqb. by rewrite Ascii.eqb_refl.
Qed.

Lemma str_drop_app p s : str_drop (String.length p) (p +:+ s) = s.
Proof. induction p as [|c p IH]; [done|]. by rewrite str_app_cons. Qed.

Lemma replace_first_unfold old new s :
  replace_first old new s
  = if startswith old s then new +:+ str_drop (String.length old) s
    else match s with
         | EmptyString => EmptyString
         | String c s' => String c (replace_first old new s')
         end.
Proof. by destruct s. Qed.

Lemma replace_first_prefix p s : replace_first p "" (p +:+ s) = s.
Proof. by rewrite replace_first_unfold, startswith_app, str_drop_app. Qed.

(** What [trim_path] makes of a path below [dir_path]: the part after
    [dir_path], with the separator that precedes it. *)
Lemma trim_path_below parentDir dirToZip rel :
  str_is_empty parentDir = false ->
  str_is_empty dirToZip = false ->
  startswith "/" dirToZip = false ->
  trim_path parentDir dirToZip
    (parentDir +:+ "/" +:+ dirToZip +:+ "/" +:+ rel)
  = "/" +:+ rel.
Proof.
  intros Hp Hd Hs. unfold trim_path, os_path_normcase.
  rewrite replace_first_prefix, Hp. cbv beta iota delta [negb].
  destruct dirToZip as [|d dirToZip]; [done|].
  change (startswith "/" (String d dirToZip))
    with (ascii_eqb slash d && true) in Hs.
  rewrite andb_true_r in Hs.
  assert (Hd' : ascii_eqb d slash = false).
  { unfold ascii_eqb in *. by rewrite Ascii.eqb_sym. }
  rewrite <- (str_app_assoc (String d dirToZip) "/" rel).
  change ("/" +:+ (String d dirToZip +:+ "/") +:+ rel)
    with (String slash ((String d dirToZip +:+ "/") +:+ rel)).
  rewrite replace_first_unfold.
  change (startswith (String d dirToZip +:+ "/")
            (String slash ((String d dirToZip +:+ "/") +:+ rel)))
    with (ascii_eqb d slash
          && startswith (dirToZip +:+ "/")
               ((String d dirToZip +:+ "/") +:+ rel)).
  rewrite Hd'. cbv beta iota delta [andb].
  by rewrite replace_first_prefix.
Qed.

(** ** [os.makedirs] never runs out of calls *)

Lemma cut_last_slash_length p :
  String.length (fst (cut_last_slash p)) + String.length (snd (cut_last_slash p))
  = String.length p.
Proof.
  induction p as [|c p IH]; simpl; [done|].
  destruct (cut_last_slash p) as [h t]. simpl in IH.
  destruct (str_is_empty h) eqn:Eh.
  - destruct h; [|done]. destruct (ascii_eqb c slash); simpl in *; lia.
  - simpl. lia.
Qed.

Lemma rstrip_slash_length s : String.length (rstrip_slash s) <= String.length s.
Proof.
  induction s as [|c s IH]; simpl; [done|].
  destruct (str_is_empty (rstrip_slash s) && ascii_eqb c slash); simpl; lia.
Qed.

Lemma os_path_split_length p :
  String.length (fst (os_path_split p)) + String.length (snd (os_path_split p))
  <= String.length p.
Proof.
  unfold os_path_split. pose proof (cut_last_slash_length p) as H.
  destruct (cut_last_slash p) as [h t]. simpl in *.
  destruct (negb (str_is_empty h) && negb (all_slashes h)); simpl; [|lia].
  pose proof (rstrip_slash_length h). lia.
Qed.

Lemma str_is_empty_length s : str_is_empty s = false -> 0 < String.length s.
Proof. destruct s; [done|]. simpl. lia. Qed.

Lemma resolve_step_exc t cur c e :
  resolve_step t cur c = inl e -> e = FileNotFoundError \/ e = NotADirectoryError.
Proof.
  unfold resolve_step. destruct (kind_at t cur) as [[|]|]; intros [= <-]; auto.
Qed.

Lemma resolve_exc w p e :
  resolve w p = inl e -> e = FileNotFoundError \/ e = NotADirectoryError.
Proof.
  unfold resolve. destruct (str_is_empty p); [intros [= <-]; auto|].
  generalize (if startswith "/" p then [] else cwd w).
  induction (split_on slash p) as [|c cs IH]; intros cur; simpl; [done|].
  destruct (resolve_step (fs w) cur c) as [e'|cur'] eqn:E.
  - intros [= <-]. by eapply resolve_step_exc.
  - apply IH.
Qed.

Lemma os_mkdir_exc p w e w' :
  os_mkdir p w = (Raise e, w') -> e <> RecursionError.
Proof.
  unfold os_mkdir, bind, trace, get_world. simpl.
  destruct (resolve _ _) as [e'|cp] eqn:Hr; simpl.
  - intros [= <- _]. by destruct (resolve_exc _ _ _ Hr) as [-> | ->].
  - destruct (kind_at (fs w) cp); [by intros [= <- _] | done].
Qed.

Lemma os_makedirs_fuel_enough fuel name w e w' :
  String.length name < fuel ->
  os_makedirs_fuel fuel name w = (Raise e, w') -> e <> RecursionError.
Proof.
  revert name w e w'. induction fuel as [|fuel IH]; intros name w e w' Hlen;
    [lia|]. simpl.
  pose proof (os_path_split_length name) as Hs1.
  destruct (os_path_split name) as [head tail]. simpl in Hs1.
  assert (Hs2 : forall h' t',
            (if str_is_empty tail then os_path_split head else (head, tail))
            = (h', t') ->
            String.length h' + String.length t' <= String.length name).
  { intros h' t'. destruct (str_is_empty tail).
    - pose proof (os_path_split_length head) as Hs3. intros Heq.
      rewrite Heq in Hs3. simpl in Hs3. lia.
    - intros [= <- <-]. lia. }
  destruct (if str_is_empty tail then os_path_split head else (head, tail))
    as [head' tail'].
  specialize (Hs2 _ _ eq_refl).
  destruct (str_is_empty head') eqn:Eh; simpl; [apply os_mkdir_exc|].
  destruct (str_is_empty tail') eqn:Et; simpl; [apply os_mkdir_exc|].
  apply str_is_empty_length in Et.
  unfold bind at 1, os_path_exists, bind, trace, get_world, ret. simpl.
  destruct (exists_b _ head'); simpl; [apply os_mkdir_exc|].
  unfold except_pass.
  destruct (os_makedirs_fuel fuel head' _) as [[[]|e1] w1] eqn:Hrec.
  - destruct (String.eqb tail' "."); [done | apply os_mkdir_exc].
  - destruct (isinstance e1 CFileExistsError) eqn:Hi.
    + destruct (String.eqb tail' "."); [done | apply os_mkdir_exc].
    + intros [= <- _]. eapply IH; [|exact Hrec]. lia.
Qed.

(** The bound on the recursion of [os_makedirs] is never met. *)
Lemma os_makedirs_total name w e w' :
  os_makedirs name w = (Raise e, w') -> e <> RecursionError.
Proof. apply os_makedirs_fuel_enough. lia. Qed.

(** ** Member names *)

Lemma lstrip_slash_startswith s : startswith "/" (lstrip_slash s) = false.
Proof.
  induction s as [|c s IH]; [done|]. cbn [lstrip_slash].
  destruct (ascii_eqb c slash) eqn:E; [done|].
  change (startswith "/" (String c s)) with (ascii_eqb slash c && true).
  rewrite andb_true_r. unfold ascii_eqb in *. by rewrite Ascii.eqb_sym.
Qed.

Lemma startswith_slash_app a b :
  str_is_empty a = false -> startswith "/" (a +:+ b) = startswith "/" a.
Proof. by destruct a. Qed.

(** A member stored by [ZipFile.write] never has a name with a leading
    separator, whatever archive name is passed. *)
Lemma zip_write_no_leading_separator zf filename arcname w zf' w' :
  zip_write zf filename arcname w = (Ok zf', w') ->
  exists name content,
    zf_members zf' = zf_members zf ++ [(name, content)] /\
    startswith "/" name = false.
Proof.
  unfold zip_write, bind at 1 2 3, trace, get_world. cbn [fs cwd log].
  destruct (resolve _ filename) as [e|cp]; [done|]. cbn [lift_exc ret].
  destruct (node_at (fs w) cp) as [n|]; [|done].
  destruct (str_is_empty (lstrip_slash (os_path_normpath arcname))) eqn:En;
    [done|].
  destruct n as [d|es].
  - unfold bind. destruct (read_file filename _) as [[content|e] w1]; [|done].
    intros [= <- <-]. exists (lstrip_slash (os_path_normpath arcname)), content.
    split; [done|]. apply lstrip_slash_startswith.
  - intros [= <- <-]. eexists _, _. split; [done|].
    rewrite startswith_slash_app by done. apply lstrip_slash_startswith.
Qed.

(** A member stored through [ZipInfo] and [writestr] has the name that was
    passed. *)
Lemma zip_writestr_keeps_name zf name content w zf' w' :
  zip_writestr zf name content w = (Ok zf', w') ->
  zf_members zf' = zf_members zf ++ [(name, Raw content)].
Proof.
  unfold zip_writestr. destruct (str_is_empty name); [done|].
  by intros [= <- <-].
Qed.

(** ** The previous content of the archive *)

Lemma assoc_put_put {A : Type} k (v v' : A) l :
  assoc_put k v (assoc_put k v' l) = assoc_put k v l.
Proof.
  induction l as [|[k0 v0] l IH]; simpl.
  - by rewrite String.eqb_refl.
  - destruct (String.eqb k k0) eqn:E; simpl.
    + by rewrite String.eqb_refl.
    + by rewrite E, IH.
Qed.

Lemma put_put t cp a b : put (put t cp a) cp b = put t cp b.
Proof.
  revert t. induction cp as [|c cp IH]; intros t; [done|]. simpl.
  destruct t as [d|es]; [done|].
  destruct (assoc c es) as [child|] eqn:Hc.
  - cbn [put]. by rewrite assoc_put_eq, IH, assoc_put_put.
  - destruct cp as [|c2 cp].
    + cbn [put]. by rewrite assoc_put_eq, assoc_put_put.
    + cbn [put]. by rewrite Hc.
Qed.

(** Replacing a regular file by a regular file changes the kind of no
    path. *)
Lemma kind_at_put_file t cp d d' cp' :
  node_at t cp = Some (File d) ->
  kind_at (put t cp (File d')) cp' = kind_at t cp'.
Proof.
  intros H. destruct (kind_at t cp') as [k|] eqn:E.
  - apply (put_sub_r t cp (File d')); [|done].
    intros old Ho. rewrite H in Ho. injection Ho as <-. apply sub_file.
  - destruct (kind_at (put t cp (File d')) cp') as [k|] eqn:E'; [|done].
    apply (put_sub_l t cp (File d') (File d) H (sub_file _ _)) in E'.
    congruence.
Qed.

Lemma resolve_from_kinds t t' comps cur :
  (forall cp, kind_at t' cp = kind_at t cp) ->
  resolve_from t' cur comps = resolve_from t cur comps.
Proof.
  intros Hk. revert cur. induction comps as [|c cs IH]; intros cur; [done|].
  simpl. unfold resolve_step. rewrite Hk.
  destruct (kind_at t cur) as [[|]|]; [apply IH|done..].
Qed.

Lemma resolve_put_file w cp d d' p :
  node_at (fs w) cp = Some (File d) ->
  resolve (mkWorld (put (fs w) cp (File d')) (cwd w) (log w)) p = resolve w p.
Proof.
  intros H. unfold resolve. simpl. destruct (str_is_empty p); [done|].
  apply resolve_from_kinds. intros cp'. by eapply kind_at_put_file.
Qed.

Lemma isdir_b_kind w p :
  isdir_b w p = match resolve w p with
                | inr cp => match kind_at (fs w) cp with
                            | Some true => true
                            | _ => false
                            end
                | inl _ => false
                end.
Proof.
  unfold isdir_b, path_node, kind_at. destruct (resolve w p) as [e|cp]; [done|].
  by destruct (node_at (fs w) cp) as [[?|?]|].
Qed.

Lemma isdir_b_put_file w cp d d' p :
  node_at (fs w) cp = Some (File d) ->
  isdir_b (mkWorld (put (fs w) cp (File d')) (cwd w) (log w)) p = isdir_b w p.
Proof.
  intros H. rewrite !isdir_b_kind, (resolve_put_file w cp d d' p H).
  destruct (resolve w p) as [e|cp']; [done|]. simpl.
  by rewrite (kind_at_put_file _ _ d d' cp' H).
Qed.

Lemma node_at_put t cp n old :
  node_at t cp = Some old -> node_at (put t cp n) cp = Some n.
Proof.
  revert t. induction cp as [|c cp IH]; intros t H; [done|]. simpl in *.
  destruct t as [d|es]; [done|].
  destruct (assoc c es) as [child|] eqn:Hc; [|done].
  cbn [node_at]. rewrite assoc_put_eq. by apply IH.
Qed.

Lemma ZipFile_open_w_forgets w z cp d d' :
  endswith_slash z = false ->
  resolve w z = inr cp ->
  node_at (fs w) cp = Some (File d) ->
  ZipFile_open_w z (mkWorld (put (fs w) cp (File d')) (cwd w) (log w))
  = ZipFile_open_w z w.
Proof.
  intros Hz Hr Hn.
  unfold ZipFile_open_w, bind, trace, get_world, resolve_for_writing.
  cbn [fs cwd log]. rewrite Hz.
  set (c := Call "zipfile.ZipFile(w)" z).
  change (resolve {| fs := put (fs w) cp (File d'); cwd := cwd w;
                     log := log w ++ [c] |} z)
    with (resolve (mkWorld (put (fs (logged w c)) cp (File d'))
                     (cwd (logged w c)) (log (logged w c))) z).
  rewrite (resolve_put_file (logged w c) cp d d' z Hn).
  change (resolve {| fs := fs w; cwd := cwd w; log := log w ++ [c] |} z)
    with (resolve w z).
  change (resolve (logged w c) z) with (resolve w z).
  rewrite Hr. cbn [lift_exc ret].
  rewrite (node_at_put _ _ (File d') _ Hn), Hn.
  unfold set_fs. cbn [fs cwd log]. by rewrite put_put.
Qed.

Lemma bind_os_path_isdir {A : Type} p (k : bool -> M A) w :
  bind (os_path_isdir p) k w
  = k (isdir_b w p) (logged w (Call "os.path.isdir" p)).
Proof. reflexivity. Qed.

(** What the archive held before the call has no influence on what
    [zip_dir] does: with any other content [d'] in place of the existing
    archive the call ends in the same way and in the same world. *)
Lemma zip_dir_forgets_archive w dir_path z cp d d' :
  isdir_b w dir_path = true ->
  endswith_slash z = false ->
  resolve w z = inr cp ->
  node_at (fs w) cp = Some (File d) ->
  zip_dir dir_path (Some z)
    (mkWorld (put (fs w) cp (File d')) (cwd w) (log w))
  = zip_dir dir_path (Some z) w.
Proof.
  intros Hdir Hz Hr Hn. unfold zip_dir.
  assert (Hze : str_is_empty z = false).
  { destruct z; [|done]. by unfold resolve in Hr. }
  rewrite Hze, !bind_os_path_isdir.
  rewrite (isdir_b_put_file w cp d d' dir_path Hn), Hdir. cbn [negb].
  destruct (os_path_split dir_path) as [parentDir dirToZip].
  set (c := Call "os.path.isdir" dir_path).
  unfold bind at 1 4.
  change (logged {| fs := put (fs w) cp (File d'); cwd := cwd w;
                    log := log w |} c)
    with (mkWorld (put (fs (logged w c)) cp (File d'))
            (cwd (logged w c)) (log (logged w c))).
  by rewrite (ZipFile_open_w_forgets (logged w c) z cp d d' Hz Hr Hn).
Qed.

(** * The claims *)

(** C1 at the failing input: the working directory [/tmp/INKPY/42] holds
    [content.xml], [styles.xml], the empty directory [Configurations2] and
    [META-INF/manifest.xml].  The files are stored under names relative to
    the archive root ([trim_path] leaves a leading separator, which
    [ZipFile.write] strips), the empty directory under
    ["/Configurations2/"], a name with a leading separator.  The same
    happens in the pipeline for the template [report.odt], whose entry
    [Configurations2/] is extracted as an empty directory. *)
Theorem zip_dir_empty_directory_name :
  let w := unpacked_world [] in
  let w' := snd (zip_dir "/tmp/INKPY/42" (Some "/tmp/INKPY/report.odt") w) in
  let self := demo_converter "report.odt" in
  let w3 :=
    snd ((unzip_odt self ;;; render demo_jinja self ;;; zip_odt self)
           demo_world) in
  fst (zip_dir "/tmp/INKPY/42" (Some "/tmp/INKPY/report.odt") w) = Ok tt /\
  namelist w' "/tmp/INKPY/report.odt"
  = Some ["content.xml"; "styles.xml"; "/Configurations2/";
          "META-INF/manifest.xml"] /\
  trim_path "/tmp/INKPY" "42" "/tmp/INKPY/42/content.xml" = "/content.xml" /\
  trim_path "/tmp/INKPY" "42" "/tmp/INKPY/42/Configurations2" +:+ "/"
  = "/Configurations2/" /\
  namelist w3 (tmp_odt self)
  = Some ["mimetype"; "content.xml"; "styles.xml"; "/Configurations2/";
          "META-INF/manifest.xml"].
Proof. vm_compute. repeat split; done. Qed.

(** C2 at the failing input: the archive [/tmp/INKPY/report.odt] is there
    before the call and holds the member [old.txt], which is no file of
    the directory; after [zip_dir] the archive no longer has it.  (By
    [zip_dir_forgets_archive] nothing the archive held can have any
    influence on the result.) *)
Theorem zip_dir_drops_existing_members :
  let stale := [("report.odt", File (Zip [("old.txt", Raw "stale")]))] in
  let w := unpacked_world stale in
  let w' := snd (zip_dir "/tmp/INKPY/42" (Some "/tmp/INKPY/report.odt") w) in
  namelist w "/tmp/INKPY/report.odt" = Some ["old.txt"] /\
  fst (zip_dir "/tmp/INKPY/42" (Some "/tmp/INKPY/report.odt") w) = Ok tt /\
  namelist w' "/tmp/INKPY/report.odt"
  = Some ["content.xml"; "styles.xml"; "/Configurations2/";
          "META-INF/manifest.xml"] /\
  ~ In "old.txt" (default [] (namelist w' "/tmp/INKPY/report.odt")).
Proof.
  vm_compute. repeat split; try done.
  intros [H|[H|[H|[H|[]]]]]; discriminate H.
Qed.

(** C3: for every request, when the whole pipeline ([convert]) ends
    without an exception, neither the temporary working directory
    ([tmp_dir]) nor the intermediate archive ([tmp_odt]) exists any
    more. *)
Theorem convert_success_removes_tmp jinja self w w' :
  convert jinja self w = (Ok tt, w') ->
  exists_b w' (tmp_dir self) = false /\ exists_b w' (tmp_odt self) = false.
Proof.
  unfold convert, _convert. intros H.
  apply bind_Ok in H as ([] & w1 & _ & H).
  apply bind_Ok in H as ([] & w2 & _ & H).
  apply bind_Ok in H as ([] & w3 & _ & H).
  apply bind_Ok in H as ([] & w4 & _ & H).
  by apply remove_tmp_Ok in H.
Qed.

Lemma convert_success_removes_tmp_witness :
  let self := demo_converter "report.odt" in
  let w' := snd (convert demo_jinja self demo_world) in
  exists_b w' (tmp_dir self) = false /\ exists_b w' (tmp_odt self) = false.
Proof.
  intros self w'.
  apply (convert_success_removes_tmp demo_jinja self demo_world w').
  vm_compute. reflexivity.
Defined.

(** C4: when one of the steps extracting ([unzip_odt]), rendering
    ([render]), repacking ([zip_odt]) or converting ([to_pdf]) raises,
    [convert] raises the same exception and returns the world as the
    failing step left it: [remove_tmp] is not run.  Up to the call of the
    backend nothing that was on disk after the extraction has been removed
    and no removing call has been made. *)
Theorem convert_failure_leaves_tmp jinja self w :
  (forall e w1,
     unzip_odt self w = (Raise e, w1) ->
     convert jinja self w = (Raise e, w1) /\ nothing_removed w w1) /\
  (forall e w1 w2,
     unzip_odt self w = (Ok tt, w1) ->
     render jinja self w1 = (Raise e, w2) ->
     convert jinja self w = (Raise e, w2) /\ nothing_removed w1 w2) /\
  (forall e w1 w2 w3,
     unzip_odt self w = (Ok tt, w1) ->
     render jinja self w1 = (Ok tt, w2) ->
     zip_odt self w2 = (Raise e, w3) ->
     convert jinja self w = (Raise e, w3) /\ nothing_removed w1 w3) /\
  (forall e w1 w2 w3 w4,
     unzip_odt self w = (Ok tt, w1) ->
     render jinja self w1 = (Ok tt, w2) ->
     zip_odt self w2 = (Ok tt, w3) ->
     to_pdf self w3 = (Raise e, w4) ->
     convert jinja self w = (Raise e, w4) /\ nothing_removed w1 w3 /\
     (keeps (backend self) -> nothing_removed w1 w4)).
Proof.
  unfold convert, _convert. split; [|split; [|split]].
  - intros e w1 H1. split; [by apply bind_Raise_l|].
    apply extends_nothing_removed. by eapply keeps_unzip_odt.
  - intros e w1 w2 H1 H2. split.
    + rewrite (bind_Ok_l _ _ _ _ _ H1). by apply bind_Raise_l.
    + apply extends_nothing_removed. by eapply keeps_render.
  - intros e w1 w2 w3 H1 H2 H3. split.
    + rewrite (bind_Ok_l _ _ _ _ _ H1), (bind_Ok_l _ _ _ _ _ H2).
      by apply bind_Raise_l.
    + apply extends_nothing_removed.
      eapply extends_trans; [by eapply keeps_render | by eapply keeps_zip_odt].
  - intros e w1 w2 w3 w4 H1 H2 H3 H4. split.
    + rewrite (bind_Ok_l _ _ _ _ _ H1), (bind_Ok_l _ _ _ _ _ H2),
        (bind_Ok_l _ _ _ _ _ H3).
      by apply bind_Raise_l.
    + assert (H13 : extends w1 w3).
      { eapply extends_trans;
          [by eapply keeps_render | by eapply keeps_zip_odt]. }
      split; [by apply extends_nothing_removed|]. intros Hb.
      apply extends_nothing_removed.
      eapply extends_trans; [exact H13 | by eapply Hb].
Qed.

Lemma convert_failure_leaves_tmp_witness :
  let self := demo_converter "broken.odt" in
  let w1 := snd (unzip_odt self demo_world) in
  let w2 := snd (render demo_jinja self w1) in
  (convert demo_jinja self demo_world
   = (Raise (External "TemplateSyntaxError"), w2) /\ nothing_removed w1 w2)
  /\ exists_b w2 (tmp_dir self) = true.
Proof.
  intros self w1 w2. split.
  - apply (proj1 (proj2 (convert_failure_leaves_tmp demo_jinja self demo_world))
             (External "TemplateSyntaxError") w1 w2).
    + vm_compute. reflexivity.
    + vm_compute. reflexivity.
  - vm_compute. reflexivity.
Defined.

(** C5, as stated, fails: with a [data] mapping without ["id"] and a
    source path that does not exist, [__init__] raises [FileDoesNotExist],
    not [IdDoesNotExist], and it has asked the file system whether the
    source exists. *)
Lemma init_without_id_counterexample :
  let data0 : gmap string PyVal := <["name" := PyStr "World"]> ∅ in
  let run := __init__ ∅ demo_backend "missing.odt" "out.pdf" data0 None PyNone
               demo_world in
  data0 !! "id" = None /\
  fst run = Raise FileDoesNotExist /\
  fst run <> Raise IdDoesNotExist /\
  log (snd run) = [Call "os.path.exists" "missing.odt"].
Proof. vm_compute. repeat split; done. Qed.

(** C5, amended: for every [data] mapping without the key ["id"] and
    every source path that exists, [__init__] raises [IdDoesNotExist]; the
    one file-system call made before is the existence check of the source
    file, and the file system is left as it was, so no temporary directory
    has been created. *)
Theorem init_without_id settings ER src out data backend lang w :
  data !! "id" = None ->
  exists_b w src = true ->
  exists w',
    __init__ settings ER src out data backend lang w
    = (Raise IdDoesNotExist, w') /\
    log w' = log w ++ [Call "os.path.exists" src] /\
    fs w' = fs w.
Proof.
  intros Hid Hex. exists (logged w (Call "os.path.exists" src)).
  split; [|done]. apply init_id_falsy; [done|].
  unfold dict_get. by rewrite Hid.
Qed.

Lemma init_without_id_witness :
  exists w',
    __init__ ∅ demo_backend "report.odt" "out.pdf"
      (<["name" := PyStr "World"]> ∅) None PyNone demo_world
    = (Raise IdDoesNotExist, w') /\
    log w' = log demo_world ++ [Call "os.path.exists" "report.odt"] /\
    fs w' = fs demo_world.
Proof.
  apply (init_without_id ∅ demo_backend "report.odt" "out.pdf"
           (<["name" := PyStr "World"]> ∅) None PyNone demo_world).
  - vm_compute. reflexivity.
  - vm_compute. reflexivity.
Defined.

(** C6: for every source path that does not exist, [__init__] raises
    [FileDoesNotExist]; no [Converter] object is made, the file system is
    untouched and the only call logged is the existence check, so
    [unzip_odt] has not run. *)
Theorem init_missing_source settings ER src out data backend lang w :
  exists_b w src = false ->
  exists w',
    __init__ settings ER src out data backend lang w
    = (Raise FileDoesNotExist, w') /\
    log w' = log w ++ [Call "os.path.exists" src] /\
    fs w' = fs w.
Proof.
  intros H. exists (logged w (Call "os.path.exists" src)).
  split; [by apply init_source_absent | done].
Qed.

Lemma init_missing_source_witness :
  exists w',
    __init__ ∅ demo_backend "missing.odt" "out.pdf" demo_data None PyNone
      demo_world
    = (Raise FileDoesNotExist, w') /\
    log w' = log demo_world ++ [Call "os.path.exists" "missing.odt"] /\
    fs w' = fs demo_world.
Proof.
  apply (init_missing_source ∅ demo_backend "missing.odt" "out.pdf" demo_data
           None PyNone demo_world).
  vm_compute. reflexivity.
Defined.

(** The message of the exception [zip_dir] raises for a [dir_path] that
    is not a directory. *)
Lemma zip_dir_isdir_false dir_path zip_file_path w :
  isdir_b w dir_path = false ->
  zip_dir dir_path zip_file_path w
  = (Raise (OSError ("dir_path argument must point to a directory. '"
                     +:+ dir_path +:+ "' does not.")),
     logged w (Call "os.path.isdir" dir_path)).
Proof.
  intros H. unfold zip_dir, bind, os_path_isdir, trace, get_world, ret.
  simpl. fold (logged w (Call "os.path.isdir" dir_path)).
  change (isdir_b (logged w (Call "os.path.isdir" dir_path)) dir_path)
    with (isdir_b w dir_path).
  by rewrite H.
Qed.

(** C7, as stated, fails: for a [dir_path] that names a regular file,
    [zip_dir] raises a plain [OSError], which is not an instance of
    [NotADirectoryError]. *)
Lemma zip_dir_not_NotADirectoryError_counterexample :
  let raised :=
    OSError "dir_path argument must point to a directory. 'report.odt' does not." in
  isdir_b demo_world "report.odt" = false /\
  fst (zip_dir "report.odt" None demo_world) = Raise raised /\
  class_of raised = COSError /\
  isinstance raised CNotADirectoryError = false.
Proof. vm_compute. repeat split; done. Qed.

(** C7, amended: for every [dir_path] that is not a directory, [zip_dir]
    raises [OSError] (the base class, with a message that names
    [dir_path]) before it opens the archive: the file system is
    unchanged. *)
Theorem zip_dir_not_a_directory_OSError dir_path zip_file_path w :
  isdir_b w dir_path = false ->
  exists msg w',
    zip_dir dir_path zip_file_path w = (Raise (OSError msg), w') /\
    isinstance (OSError msg) COSError = true /\
    fs w' = fs w.
Proof.
  intros H. eexists _, _. split; [by apply zip_dir_isdir_false|].
  by split.
Qed.

Lemma zip_dir_not_a_directory_OSError_witness :
  exists msg w',
    zip_dir "report.odt" (Some "x.zip") demo_world = (Raise (OSError msg), w') /\
    isinstance (OSError msg) COSError = true /\
    fs w' = fs demo_world.
Proof.
  apply (zip_dir_not_a_directory_OSError "report.odt" (Some "x.zip") demo_world).
  vm_compute. reflexivity.
Defined.

(** Whatever the module global [settings] holds, a call of [set_lang]
    without a language gives ["pl"]: [getattr] looks for an attribute of
    the [dict] object, never for one of its keys. *)
Lemma set_lang_default settings self lang :
  truthy lang = false ->
  set_lang settings self lang = inr (assign_lang_code self (PyStr "pl")).
Proof. intros H. unfold set_lang. by rewrite H. Qed.

(** C8 at the failing input: the host has set
    [settings["LANGUAGE_CODE"] = "en-us"] and no language is passed; the
    language of the request is ["pl"], not ["en"]. *)
Theorem set_lang_ignores_LANGUAGE_CODE :
  let settings : gmap string PyVal := <["LANGUAGE_CODE" := PyStr "en-us"]> ∅ in
  settings !! "LANGUAGE_CODE" = Some (PyStr "en-us") /\
  set_lang settings (demo_converter "report.odt") PyNone
  = inr (assign_lang_code (demo_converter "report.odt") (PyStr "pl")) /\
  match fst (__init__ settings demo_backend "report.odt" "out.pdf" demo_data
               None PyNone demo_world) with
  | Ok self => lang_code self = PyStr "pl"
  | Raise _ => False
  end.
Proof. vm_compute. repeat split; done. Qed.

(** C9, as stated, fails: for the source ["ab./ab"] (a file [ab] in the
    directory [ab.]) the archive is named ["ab.odt"], which is the base
    name without extension followed by [".odt"], although the source has
    no extension at all. *)
Lemma tmp_odt_name_counterexample :
  match fst (__init__ ∅ demo_backend "ab./ab" "out.pdf" demo_data None PyNone
               demo_world) with
  | Ok self => tmp_odt self = "/tmp/INKPY/ab.odt"
  | Raise _ => False
  end /\
  tmp_odt_name "ab./ab" = basename_without_ext "ab./ab" +:+ ".odt" /\
  extension_length "ab./ab" = 0 /\
  extension_length "ab./ab" <> 3.
Proof. vm_compute. repeat split; done. Qed.

(** C9, amended: the intermediate archive is the temp root joined with
    the last segment of the source path with its last three characters
    removed and ["odt"] appended.  This name is the source's base name
    without extension followed by [".odt"] whenever the extension is three
    characters long, and, when the last segment of the source path has at
    least three characters, only then. *)
Theorem tmp_odt_of_source settings ER src out data backend lang w self w' :
  __init__ settings ER src out data backend lang w = (Ok self, w') ->
  tmp_odt self
  = py_str (dict_get_default settings "tmp_dir" (PyStr "/tmp/INKPY"))
    +:+ "/" +:+ last_segment (drop_last3 src +:+ "odt") /\
  (extension_length src = 3 ->
   last_segment (drop_last3 src +:+ "odt")
   = basename_without_ext src +:+ ".odt") /\
  (3 <= String.length (os_path_basename src) ->
   last_segment (drop_last3 src +:+ "odt")
   = basename_without_ext src +:+ ".odt" ->
   extension_length src = 3).
Proof.
  intros H. apply init_Ok in H as (_ & _ & Ht & _).
  split; [done|]. split.
  - apply tmp_odt_name_ext3.
  - apply tmp_odt_name_ext3_only.
Qed.

Lemma tmp_odt_of_source_witness :
  tmp_odt (demo_converter "report.odt")
  = py_str (dict_get_default ∅ "tmp_dir" (PyStr "/tmp/INKPY"))
    +:+ "/" +:+ last_segment (drop_last3 "report.odt" +:+ "odt") /\
  last_segment (drop_last3 "report.odt" +:+ "odt")
  = basename_without_ext "report.odt" +:+ ".odt" /\
  extension_length "report.odt" = 3.
Proof.
  destruct (tmp_odt_of_source ∅ demo_backend "report.odt" "out.pdf" demo_data
              None PyNone demo_world (demo_converter "report.odt")
              (logged demo_world (Call "os.path.exists" "report.odt")))
    as (H1 & H2 & H3).
  - vm_compute. reflexivity.
  - split; [exact H1|]. split.
    + apply H2. vm_compute. reflexivity.
    + apply H3; vm_compute; [lia | reflexivity].
Defined.

Example tmp_odt_name_docx : tmp_odt_name "report.docx" = "report.dodt".
Proof. reflexivity. Qed.

(** C10: [__init__] raises [IdDoesNotExist] when the key ["id"] is absent
    from [data] and also for every falsy value stored under it, among them
    the empty string, [0], [False] and [None] (the source file being there,
    so that the check of ["id"] is reached). *)
Theorem init_falsy_id_raises settings ER src out data backend lang w :
  exists_b w src = true ->
  (data !! "id" = None \/
   exists v, data !! "id" = Some v /\
     (v = PyStr "" \/ v = PyInt 0 \/ v = PyBool false \/ v = PyNone \/
      truthy v = false)) ->
  fst (__init__ settings ER src out data backend lang w) = Raise IdDoesNotExist.
Proof.
  intros Hex Hid. rewrite init_id_falsy; [done..|].
  unfold dict_get. destruct Hid as [->|(v & -> & Hv)]; [done|]. simpl.
  by destruct Hv as [->|[->|[->|[->|Hv]]]].
Qed.

Lemma init_falsy_id_raises_witness :
  fst (__init__ ∅ demo_backend "report.odt" "out.pdf" (<["id" := PyInt 0]> demo_data)
         None PyNone demo_world) = Raise IdDoesNotExist.
Proof.
  apply (init_falsy_id_raises ∅ demo_backend "report.odt" "out.pdf"
           (<["id" := PyInt 0]> demo_data) None PyNone demo_world).
  - vm_compute. reflexivity.
  - right. exists (PyInt 0). split; [vm_compute; reflexivity|]. right. by left.
Defined.

Example init_falsy_id_values :
  Forall (fun v =>
            fst (__init__ ∅ demo_backend "report.odt" "out.pdf"
                   (<["id" := v]> demo_data) None PyNone demo_world)
            = Raise IdDoesNotExist)
    [PyStr ""; PyInt 0; PyBool false; PyNone; PyObj false "[]"].
Proof. repeat constructor. Qed.

(** * Further properties *)

(** ** The constructor, whatever it is given *)

Lemma set_lang_result settings self lang :
  set_lang settings self lang
  = inr (assign_lang_code self (if truthy lang then lang else PyStr "pl")).
Proof. unfold set_lang. by destruct (truthy lang). Qed.








(** ** Temporary paths of different requests *)

(** X4: the intermediate archive of a request depends on [settings] and
    on the base name of the source only: two requests whose sources have
    the same base name (of three characters or more) get the same
    [tmp_odt], whatever their ids, their data and the directories of their
    sources. *)
Theorem tmp_odt_shared settings ER
    src1 out1 data1 backend1 lang1 w1 self1 w1'
    src2 out2 data2 backend2 lang2 w2 self2 w2' :
  __init__ settings ER src1 out1 data1 backend1 lang1 w1 = (Ok self1, w1') ->
  __init__ settings ER src2 out2 data2 backend2 lang2 w2 = (Ok self2, w2') ->
  os_path_basename src1 = os_path_basename src2 ->
  3 <= String.length (os_path_basename src1) ->
  tmp_odt self1 = tmp_odt self2.
Proof.
  intros H1 H2 Hb Hlen.
  apply init_Ok in H1 as (_ & _ & -> & _).
  apply init_Ok in H2 as (_ & _ & -> & _).
  unfold tmp_odt_name. rewrite !last_segment_drop_last3 by (by rewrite <- ?Hb).
  by rewrite Hb.
Qed.

Lemma tmp_odt_shared_witness :
  tmp_odt
    (mkConverter "/srv/a/report.odt" "a.pdf" (<["id" := PyInt 1]> ∅)
       (PyStr "/tmp/INKPY") "/tmp/INKPY/1" "/tmp/INKPY/report.odt"
       (PyStr "pl") (demo_backend "a.pdf" "/tmp/INKPY/report.odt"))
  = tmp_odt
      (mkConverter "/srv/b/report.odt" "b.pdf" (<["id" := PyInt 2]> ∅)
         (PyStr "/tmp/INKPY") "/tmp/INKPY/2" "/tmp/INKPY/report.odt"
         (PyStr "pl") (demo_backend "b.pdf" "/tmp/INKPY/report.odt")).
Proof.
  eapply (tmp_odt_shared ∅ demo_backend
            "/srv/a/report.odt" "a.pdf" (<["id" := PyInt 1]> ∅) None PyNone
            two_dirs_world _ _
            "/srv/b/report.odt" "b.pdf" (<["id" := PyInt 2]> ∅) None PyNone
            two_dirs_world _ _).
  - vm_compute. reflexivity.
  - vm_compute. reflexivity.
  - vm_compute. reflexivity.
  - vm_compute. lia.
Defined.




(** ** [trim_path] and the forms of [dir_path] *)

Lemma rstrip_slash_app_slash s : rstrip_slash (s +:+ "/") = rstrip_slash s.
Proof.
  induction s as [|c s IH]; [done|]. rewrite str_app_cons.
  cbn [rstrip_slash]. by rewrite IH.
Qed.

Lemma rstrip_slash_id s : endswith_slash s = false -> rstrip_slash s = s.
Proof.
  induction s as [|c s IH]; [done|]. cbn [rstrip_slash endswith_slash].
  destruct s as [|c' s'].
  - intros ->. done.
  - intros H. rewrite (IH H). done.
Qed.

Lemma cut_last_slash_no_slash s :
  has_char slash s = false -> cut_last_slash s = ("", s).
Proof.
  induction s as [|c s IH]; [done|]. cbn [has_char cut_last_slash].
  intros [Hc Hs]%orb_false_elim. by rewrite (IH Hs), Hc.
Qed.

Lemma cut_last_slash_app h t :
  has_char slash t = false ->
  cut_last_slash (h +:+ String slash t) = (h +:+ "/", t).
Proof.
  intros Ht. induction h as [|c h IH].
  - change ("" +:+ String slash t) with (String slash t).
    cbn [cut_last_slash]. rewrite (cut_last_slash_no_slash t Ht).
    cbn [str_is_empty]. unfold ascii_eqb. by rewrite Ascii.eqb_refl.
  - rewrite !str_app_cons. cbn [cut_last_slash]. rewrite IH.
    by destruct h.
Qed.

Lemma os_path_split_parent_name P D :
  str_is_empty P = false -> endswith_slash P = false ->
  has_char slash D = false ->
  os_path_split (P +:+ "/" +:+ D) = (P, D).
Proof.
  intros HP HPe HD. unfold os_path_split.
  change (P +:+ "/" +:+ D) with (P +:+ String slash D).
  rewrite (cut_last_slash_app P D HD).
  unfold all_slashes. rewrite rstrip_slash_app_slash, (rstrip_slash_id P HPe).
  rewrite HP. by destruct P.
Qed.

Lemma replace_first_empty s : replace_first "" "" s = s.
Proof. by destruct s. Qed.

(** X6: for a directory [P/D] (a parent path [P] and a name [D]) the
    function [os.path.split] gives [(P, D)], and [trim_path] turns every
    path [P/D/rel] below the directory into ["/rel"]: the parent and the
    directory's own name are removed, the separator in front of [rel]
    stays. *)
Theorem trim_path_below_directory P D rel :
  str_is_empty P = false -> endswith_slash P = false ->
  str_is_empty D = false -> has_char slash D = false ->
  os_path_split (P +:+ "/" +:+ D) = (P, D) /\
  trim_path P D ((P +:+ "/" +:+ D) +:+ "/" +:+ rel) = "/" +:+ rel.
Proof.
  intros HP HPe HD HDs. split; [by apply os_path_split_parent_name|].
  rewrite !str_app_assoc. apply trim_path_below; [done..|].
  destruct D as [|d D]; [done|]. cbn [has_char] in HDs.
  apply orb_false_elim in HDs as [Hd _].
  change (startswith "/" (String d D)) with (ascii_eqb slash d && true).
  unfold ascii_eqb in *. by rewrite andb_true_r, Ascii.eqb_sym.
Qed.

Lemma trim_path_below_directory_witness :
  os_path_split ("/tmp/INKPY" +:+ "/" +:+ "42") = ("/tmp/INKPY", "42") /\
  trim_path "/tmp/INKPY" "42"
    (("/tmp/INKPY" +:+ "/" +:+ "42") +:+ "/" +:+ "META-INF/manifest.xml")
  = "/" +:+ "META-INF/manifest.xml".
Proof.
  apply (trim_path_below_directory "/tmp/INKPY" "42" "META-INF/manifest.xml");
    vm_compute; reflexivity.
Defined.

(** X7: the two other forms of [dir_path].  When [dir_path] ends with a
    separator ([P/]), [os.path.split] gives an empty name and [trim_path]
    turns [P/rel] into [rel], without a separator in front.  When
    [dir_path] is a bare name [D], there is no parent and [trim_path]
    changes nothing: the paths keep [D] as their first segment. *)
Theorem trim_path_other_forms P D :
  (str_is_empty P = false -> endswith_slash P = false ->
   os_path_split (P +:+ "/") = (P, "") /\
   forall rel, trim_path P "" ((P +:+ "/") +:+ rel) = rel) /\
  (has_char slash D = false ->
   os_path_split D = ("", D) /\
   forall path, trim_path "" D path = path).
Proof.
  split.
  - intros HP HPe. split.
    + change (P +:+ "/") with (P +:+ "/" +:+ "").
      by apply os_path_split_parent_name.
    + intros rel. unfold trim_path, os_path_normcase.
      rewrite str_app_assoc, replace_first_prefix, HP. cbn [negb].
      change ("" +:+ "/") with ("/").
      apply (replace_first_prefix "/" rel).
  - intros HD. split.
    + unfold os_path_split. by rewrite (cut_last_slash_no_slash D HD).
    + intros path. unfold trim_path, os_path_normcase. cbn [str_is_empty negb].
      apply replace_first_empty.
Qed.

Lemma trim_path_other_forms_witness :
  (os_path_split ("/tmp/INKPY/42" +:+ "/") = ("/tmp/INKPY/42", "") /\
   trim_path "/tmp/INKPY/42" "" (("/tmp/INKPY/42" +:+ "/") +:+ "content.xml")
   = "content.xml") /\
  (os_path_split "work" = ("", "work") /\
   trim_path "" "work" "work/content.xml" = "work/content.xml").
Proof.
  destruct (trim_path_other_forms "/tmp/INKPY/42" "work") as [H1 H2]. split.
  - destruct H1 as [Ha Hb]; [vm_compute; reflexivity..|].
    split; [exact Ha | apply Hb].
  - destruct H2 as [Ha Hb]; [vm_compute; reflexivity|].
    split; [exact Ha | apply Hb].
Defined.

(** ** What [zip_dir] leaves on disk *)

Lemma kind_at_app t l c k :
  kind_at t (l ++ [c]) = Some k -> kind_at t l = Some true.
Proof.
  revert t. induction l as [|x l IH]; intros t.
  - by destruct t as [d|es].
  - destruct t as [d|es]; [done|]. simpl app. rewrite !kind_at_cons.
    destruct (assoc x es); [apply IH | done].
Qed.

Lemma kind_at_removelast t cp :
  kind_at t cp = Some true -> kind_at t (removelast cp) = Some true.
Proof.
  destruct cp as [|x cp] using rev_ind; [done|].
  rewrite removelast_last. apply kind_at_app.
Qed.

(** The canonical path a path string resolves to is the root or has a
    directory as its parent. *)
Lemma resolve_step_parent t cur c cp :
  resolve_step t cur c = inr cp ->
  cp = [] \/ kind_at t (removelast cp) = Some true.
Proof.
  unfold resolve_step. destruct (kind_at t cur) as [[|]|] eqn:E; try done.
  intros [= <-]. destruct (str_is_empty c || String.eqb c ".").
  - right. by apply kind_at_removelast.
  - destruct (String.eqb c "..").
    + right. by do 2 apply kind_at_removelast.
    + right. by rewrite removelast_last.
Qed.

Lemma resolve_from_parent t comps cur cp :
  comps <> [] -> resolve_from t cur comps = inr cp ->
  cp = [] \/ kind_at t (removelast cp) = Some true.
Proof.
  revert cur. induction comps as [|c cs IH]; intros cur Hne; [done|]. simpl.
  destruct (resolve_step t cur c) as [e|cur'] eqn:E; [done|].
  destruct cs as [|c' cs].
  - intros [= <-]. by eapply resolve_step_parent.
  - by apply IH.
Qed.

Lemma resolve_parent w p cp :
  resolve w p = inr cp ->
  cp = [] \/ kind_at (fs w) (removelast cp) = Some true.
Proof.
  unfold resolve. destruct (str_is_empty p); [done|].
  apply resolve_from_parent, split_on_nonempty.
Qed.

Lemma node_at_put_new t cp n :
  cp = [] \/ kind_at t (removelast cp) = Some true ->
  node_at (put t cp n) cp = Some n.
Proof.
  revert t. induction cp as [|c cp IH]; intros t; [done|].
  intros [|H]; [done|]. destruct t as [d|es].
  { destruct cp; simpl in H; done. }
  destruct cp as [|c2 cp].
  - cbn [put]. destruct (assoc c es); cbn [node_at put];
      by rewrite assoc_put_eq.
  - change (removelast (c :: c2 :: cp)) with (c :: removelast (c2 :: cp)) in H.
    rewrite kind_at_cons in H.
    cbn [put]. destruct (assoc c es) as [child|] eqn:Hc; [|done].
    cbn [node_at]. rewrite assoc_put_eq. apply IH. by right.
Qed.

Lemma resolve_for_writing_resolve w p cp :
  resolve_for_writing w p = inr cp -> resolve w p = inr cp.
Proof.
  unfold resolve_for_writing. destruct (endswith_slash p); [|done].
  by destruct (resolve w (strip_trailing p)).
Qed.

(** *** Calls that only read *)

Lemma reads_ret {A : Type} (a : A) : reads (ret a).
Proof. by intros w r w' [= <- <-]. Qed.

Lemma reads_raise {A : Type} e : reads (@raise A e).
Proof. by intros w r w' [= <- <-]. Qed.

Lemma reads_bind {A B : Type} (m : M A) (k : A -> M B) :
  reads m -> (forall a, reads (k a)) -> reads (bind m k).
Proof.
  intros Hm Hk w r w'. unfold bind.
  destruct (m w) as [[a|e] w1] eqn:E.
  - intros H. destruct (Hm _ _ _ E) as [<- <-]. by eapply Hk.
  - intros [= <- <-]. by eapply Hm.
Qed.

Lemma reads_trace fn p : reads (trace fn p).
Proof. by intros w r w' [= <- <-]. Qed.

Lemma reads_get_world : reads get_world.
Proof. by intros w r w' [= <- <-]. Qed.

Lemma reads_lift_exc {A : Type} (r : Exc + A) : reads (lift_exc r).
Proof. destruct r; [apply reads_raise | apply reads_ret]. Qed.

Lemma reads_fold_each {A S : Type} (l : list A) (body : S -> A -> M S) s :
  (forall s x, reads (body s x)) -> reads (fold_each l body s).
Proof.
  intros Hb. revert s. induction l as [|x l IH]; intros s; simpl.
  - apply reads_ret.
  - apply reads_bind; [apply Hb | done].
Qed.

Lemma reads_read_file p : reads (read_file p).
Proof.
  unfold read_file. apply reads_bind; [apply reads_trace|]. intros _.
  apply reads_bind; [apply reads_get_world|]. intros w0.
  apply reads_bind; [apply reads_lift_exc|]. intros cp.
  destruct (node_at (fs w0) cp) as [[d|es]|];
    first [apply reads_ret | apply reads_raise].
Qed.

Lemma reads_zip_write zf filename arcname : reads (zip_write zf filename arcname).
Proof.
  unfold zip_write. apply reads_bind; [apply reads_trace|]. intros _.
  apply reads_bind; [apply reads_get_world|]. intros w0.
  apply reads_bind; [apply reads_lift_exc|]. intros cp.
  destruct (node_at (fs w0) cp) as [n|]; [|apply reads_raise].
  destruct (str_is_empty _); [apply reads_raise|].
  destruct n as [d|es]; [|apply reads_ret].
  apply reads_bind; [apply reads_read_file|]. intros. apply reads_ret.
Qed.

Lemma reads_zip_writestr zf name content : reads (zip_writestr zf name content).
Proof.
  unfold zip_writestr.
  destruct (str_is_empty name); [apply reads_raise | apply reads_ret].
Qed.

Lemma reads_os_walk top : reads (os_walk top).
Proof.
  unfold os_walk. apply reads_bind; [apply reads_trace|]. intros _.
  apply reads_bind; [apply reads_get_world|]. intros. apply reads_ret.
Qed.

Lemma reads_os_path_isdir p : reads (os_path_isdir p).
Proof.
  unfold os_path_isdir. apply reads_bind; [apply reads_trace|]. intros _.
  apply reads_bind; [apply reads_get_world|]. intros. apply reads_ret.
Qed.

Lemma reads_os_path_exists p : reads (os_path_exists p).
Proof.
  unfold os_path_exists. apply reads_bind; [apply reads_trace|]. intros _.
  apply reads_bind; [apply reads_get_world|]. intros. apply reads_ret.
Qed.

(** *** Loops *)

Lemma fold_each_invariant {A S : Type} (I : S -> Prop) (l : list A)
    (body : S -> A -> M S) s w s' w' :
  (forall s x w s' w', I s -> body s x w = (Ok s', w') -> I s') ->
  I s -> fold_each l body s w = (Ok s', w') -> I s'.
Proof.
  intros Hb. revert s w. induction l as [|x l IH]; intros s w Hs; simpl.
  - by intros [= <- <-].
  - intros H. apply bind_Ok in H as (s1 & w1 & H1 & H2).
    eapply IH; [|exact H2]. by eapply Hb.
Qed.

Lemma fold_each_measure {A S : Type} (mu : S -> nat) (c : A -> nat)
    (l : list A) (body : S -> A -> M S) s w s' w' :
  (forall s x w s' w', body s x w = (Ok s', w') -> mu s' = mu s + c x) ->
  fold_each l body s w = (Ok s', w') ->
  mu s' = mu s + list_sum (map c l).
Proof.
  intros Hb. revert s w. induction l as [|x l IH]; intros s w; simpl.
  - intros [= <- <-]. lia.
  - intros H. apply bind_Ok in H as (s1 & w1 & H1 & H2).
    rewrite (IH _ _ H2), (Hb _ _ _ _ _ H1). lia.
Qed.

(** *** The steps of [zip_dir] *)

Lemma os_path_isdir_run p w :
  os_path_isdir p w = (Ok (isdir_b w p), logged w (Call "os.path.isdir" p)).
Proof. reflexivity. Qed.

Lemma os_path_exists_run p w :
  os_path_exists p w = (Ok (exists_b w p), logged w (Call "os.path.exists" p)).
Proof. reflexivity. Qed.

Lemma path_node_ext w1 w2 p :
  fs w1 = fs w2 -> cwd w1 = cwd w2 -> path_node w1 p = path_node w2 p.
Proof.
  intros Hf Hc. unfold path_node, resolve. by rewrite Hf, Hc.
Qed.

Lemma resolve_ext w1 w2 p :
  fs w1 = fs w2 -> cwd w1 = cwd w2 -> resolve w1 p = resolve w2 p.
Proof. intros Hf Hc. unfold resolve. by rewrite Hf, Hc. Qed.

Lemma ZipFile_open_w_Ok p w zf w' :
  ZipFile_open_w p w = (Ok zf, w') ->
  exists cp,
    resolve w p = inr cp /\ zf = mkZipFileW cp [] /\
    fs w' = put (fs w) cp (File (Raw "")) /\ cwd w' = cwd w /\
    node_at (fs w') cp = Some (File (Raw "")).
Proof.
  unfold ZipFile_open_w, bind, trace, get_world. cbn [fs cwd log].
  set (w0 := mkWorld (fs w) (cwd w) _).
  destruct (resolve_for_writing w0 p) as [e|cp] eqn:Hr; [done|].
  apply resolve_for_writing_resolve in Hr.
  change (resolve w p = inr cp) in Hr.
  cbn [lift_exc ret].
  assert (Hn : node_at (put (fs w) cp (File (Raw ""))) cp
               = Some (File (Raw ""))).
  { apply node_at_put_new. by eapply resolve_parent. }
  destruct (node_at (fs w) cp) as [[d|es]|]; [|done|];
    intros [= <- <-]; by exists cp.
Qed.

Lemma zip_write_Ok zf filename arcname w zf' w' :
  zip_write zf filename arcname w = (Ok zf', w') ->
  zf_file zf' = zf_file zf /\
  exists m, zf_members zf' = zf_members zf ++ [m] /\ file_member m.
Proof.
  intros H. split.
  - revert H. unfold zip_write, bind at 1 2 3, trace, get_world.
    cbn [fs cwd log].
    destruct (resolve _ filename) as [e|cp]; [done|]. cbn [lift_exc ret].
    destruct (node_at (fs w) cp) as [n|]; [|done].
    destruct (str_is_empty _); [done|].
    destruct n as [d|es]; [|by intros [= <- <-]].
    unfold bind. destruct (read_file filename _) as [[content|e] w1]; [|done].
    by intros [= <- <-].
  - apply zip_write_no_leading_separator in H as (name & content & Hm & Hs).
    by exists (name, content).
Qed.

Lemma endswith_slash_app_slash s : endswith_slash (s +:+ "/") = true.
Proof.
  induction s as [|c s IH]; [done|]. rewrite str_app_cons.
  cbn [endswith_slash]. rewrite IH. by destruct (s +:+ "/").
Qed.

Lemma zip_writestr_Ok zf name content w zf' w' :
  zip_writestr zf name content w = (Ok zf', w') ->
  zf_file zf' = zf_file zf /\
  zf_members zf' = zf_members zf ++ [(name, Raw content)].
Proof.
  unfold zip_writestr. destruct (str_is_empty name); [done|].
  by intros [= <- <-].
Qed.

Lemma zip_close_Ok zf w w' ms0 :
  node_at (fs w) (zf_file zf) = Some (File ms0) ->
  zip_close zf w = (Ok tt, w') ->
  fs w' = put (fs w) (zf_file zf) (File (Zip (zf_members zf))) /\
  cwd w' = cwd w.
Proof.
  unfold zip_close, bind, get_world. intros ->. by intros [= <-].
Qed.

(** The archive path [zip_dir] writes to. *)
Lemma zip_dir_Ok dir_path zip_file_path w w' :
  zip_dir dir_path zip_file_path w = (Ok tt, w') ->
  exists cp ms w1,
    resolve w (zip_target dir_path zip_file_path) = inr cp /\
    isdir_b w dir_path = true /\
    fs w1 = put (fs w) cp (File (Raw "")) /\ cwd w1 = cwd w /\
    fs w' = put (fs w) cp (File (Zip ms)) /\ cwd w' = cwd w /\
    Forall (fun m => file_member m \/ directory_member m) ms /\
    length ms
    = triples_members (match path_node w1 dir_path with
                       | Some n => walk_node dir_path n
                       | None => []
                       end).
Proof.
  unfold zip_dir, zip_target.
  set (z := match zip_file_path with
            | Some z => if str_is_empty z then dir_path +:+ ".zip" else z
            | None => dir_path +:+ ".zip"
            end).
  intros H. apply bind_Ok in H as (isd & w0 & H0 & H).
  rewrite os_path_isdir_run in H0. injection H0 as <- <-.
  destruct (isdir_b w dir_path) eqn:Hdir; [|done]. cbn [negb] in H.
  destruct (os_path_split dir_path) as [parentDir dirToZip].
  apply bind_Ok in H as (zf0 & w1 & Hopen & H).
  apply ZipFile_open_w_Ok in Hopen as (cp & Hr & -> & Hfs1 & Hcwd1 & Hn1).
  apply bind_Ok in H as (triples & w2 & Hwalk & H).
  assert (Htr : triples = match path_node w1 dir_path with
                          | Some n => walk_node dir_path n
                          | None => []
                          end /\ fs w2 = fs w1 /\ cwd w2 = cwd w1).
  { revert Hwalk. unfold os_walk, bind, trace, get_world, ret.
    cbn [fs cwd log]. intros [= <- <-]. split; [reflexivity|done]. }
  destruct Htr as (-> & Hfs2 & Hcwd2).
  apply bind_Ok in H as (zf1 & w3 & Hloop & Hclose).
  set (body := fun (out_file : ZipFileW)
                   (t : string * list string * list string) => _) in Hloop.
  assert (Hstep : forall s t w s' w',
            body s t w = (Ok s', w') ->
            zf_file s' = zf_file s /\
            exists new,
              zf_members s' = zf_members s ++ new /\
              length new = triple_members t /\
              Forall (fun m => file_member m \/ directory_member m) new).
  { intros s [[adir dnames] fnames] wa s' wb. unfold body.
    intros Hb. apply bind_Ok in Hb as (s1 & wc & Hfiles & Hlast).
    assert (Hf : zf_file s1 = zf_file s /\
                 exists new, zf_members s1 = zf_members s ++ new /\
                   length new = length fnames /\
                   Forall (fun m => file_member m \/ directory_member m) new).
    { clear Hlast. revert s wa Hfiles.
      induction fnames as [|f fnames IH]; intros s wa; simpl.
      - intros [= <- <-]. split; [done|]. exists []. by rewrite app_nil_r.
      - intros Hb. apply bind_Ok in Hb as (s2 & wd & Hw & Hrest).
        apply zip_write_Ok in Hw as (Hfile & m & Hm & Hfm).
        destruct (IH _ _ Hrest) as (Hfile' & new & Hnew & Hlen & Hall).
        split; [congruence|]. exists (m :: new).
        rewrite Hnew, Hm, <- app_assoc. split; [done|].
        split; [simpl; lia|]. constructor; [by left | done]. }
    destruct Hf as (Hfile1 & new & Hnew & Hlen & Hall).
    destruct fnames as [|f fnames].
    - destruct dnames as [|d dnames].
      + apply zip_writestr_Ok in Hlast as (Hfile2 & Hm).
        split; [congruence|].
        exists (new ++ [(trim_path parentDir dirToZip adir +:+ "/", Raw "")]).
        rewrite Hm, Hnew, <- app_assoc. split; [done|]. split.
        * rewrite length_app. simpl in *. lia.
        * apply Forall_app. split; [done|]. constructor; [|done].
          right. split; [apply endswith_slash_app_slash | done].
      + injection Hlast as <- <-. split; [done|]. exists new.
        split; [done|]. split; [simpl in *; lia | done].
    - injection Hlast as <- <-. split; [done|]. exists new.
      split; [done|]. split; [simpl in *; lia | done]. }
  assert (Hfile : zf_file zf1 = cp).
  { apply (fold_each_invariant (fun s => zf_file s = cp) _ body _ _ _ _)
      in Hloop; [done| |done].
    intros s t wa s' wb Hs Hb.
    destruct (Hstep _ _ _ _ _ Hb) as (-> & _). exact Hs. }
  assert (Hall : Forall (fun m => file_member m \/ directory_member m)
                   (zf_members zf1)).
  { apply (fold_each_invariant
             (fun s => Forall (fun m => file_member m \/ directory_member m)
                         (zf_members s)) _ body _ _ _ _) in Hloop; [done| |done].
    intros s t wa s' wb Hs Hb.
    destruct (Hstep _ _ _ _ _ Hb) as (_ & new & -> & _ & Hnew).
    by apply Forall_app. }
  assert (Hlen : length (zf_members zf1)
                 = 0 + list_sum (map triple_members
                     (match path_node w1 dir_path with
                      | Some n => walk_node dir_path n
                      | None => []
                      end))).
  { apply (fold_each_measure (fun s => length (zf_members s)) triple_members
             _ body _ _ _ _) in Hloop; [done|].
    intros s t wa s' wb Hb.
    destruct (Hstep _ _ _ _ _ Hb) as (_ & new & -> & Hl & _).
    rewrite length_app. lia. }
  assert (Hfs3 : fs w3 = fs w2 /\ cwd w3 = cwd w2).
  { eapply (reads_fold_each _ body); [|exact Hloop].
    intros s [[adir dnames] fnames]. unfold body.
    apply reads_bind.
    - apply reads_fold_each. intros. apply reads_zip_write.
    - intros s1. destruct fnames, dnames;
        first [apply reads_zip_writestr | apply reads_ret]. }
  destruct Hfs3 as [Hfs3 Hcwd3].
  apply (zip_close_Ok zf1 w3 w' (Raw "")) in Hclose.
  2:{ rewrite Hfile, Hfs3, Hfs2. exact Hn1. }
  destruct Hclose as [Hfs' Hcwd'].
  exists cp, (zf_members zf1), w1.
  rewrite Hfile, Hfs3, Hfs2, Hfs1, put_put in Hfs'.
  unfold logged in *. cbn [fs cwd log] in *.
  change (resolve w z = inr cp) in Hr.
  repeat split; try done; congruence.
Qed.

(** *** [os.walk] and the content of files *)

Lemma walk_node_dir top es :
  walk_node top (Dir es)
  = (top, dir_names es, file_names es)
    :: flat_map (fun e => walk_node (os_path_join top (fst e)) (snd e)) es.
Proof.
  cbn [walk_node]. f_equal.
  induction es as [|[k c] es IH]; [done|]. cbn [flat_map fst snd].
  by rewrite <- IH.
Qed.

Lemma entries_put_same_kind c child child' es :
  assoc c es = Some child ->
  is_dir_node child' = is_dir_node child ->
  (forall top, walk_node top child' = walk_node top child) ->
  dir_names (assoc_put c child' es) = dir_names es /\
  file_names (assoc_put c child' es) = file_names es /\
  forall top,
    flat_map (fun e => walk_node (os_path_join top (fst e)) (snd e))
      (assoc_put c child' es)
    = flat_map (fun e => walk_node (os_path_join top (fst e)) (snd e)) es.
Proof.
  intros Hc Hk Hw. unfold dir_names, file_names.
  induction es as [|[k0 c0] es IH]; [done|].
  cbn [assoc assoc_put] in Hc |- *.
  destruct (String.eqb c k0) eqn:E.
  - apply String.eqb_eq in E. subst k0. injection Hc as ->.
    cbn [List.filter flat_map fst snd]. rewrite Hk.
    split; [by destruct (is_dir_node child)|].
    split; [by destruct (is_dir_node child)|]. intros top. by rewrite Hw.
  - destruct (IH Hc) as (Hd & Hf & Hfl).
    cbn [List.filter flat_map fst snd].
    split; [|split].
    + destruct (is_dir_node c0); cbn [map]; by rewrite Hd.
    + destruct (negb (is_dir_node c0)); cbn [map]; by rewrite Hf.
    + intros top. by rewrite Hfl.
Qed.

Lemma is_dir_node_put_file n r d d' :
  node_at n r = Some (File d) ->
  is_dir_node (put n r (File d')) = is_dir_node n.
Proof.
  intros H. pose proof (kind_at_put_file n r d d' [] H) as Hk.
  unfold kind_at in Hk. simpl in Hk. by injection Hk.
Qed.

(** Replacing the content of a regular file does not change what
    [os.walk] yields. *)
Lemma walk_node_put_file n r d d' top :
  node_at n r = Some (File d) ->
  walk_node top (put n r (File d')) = walk_node top n.
Proof.
  revert n top. induction r as [|c r IH]; intros n top H.
  - simpl in H. injection H as ->. done.
  - destruct n as [d0|es]; [done|]. simpl in H.
    destruct (assoc c es) as [child|] eqn:Hc; [|done].
    cbn [put]. rewrite Hc, !walk_node_dir.
    destruct (entries_put_same_kind c child (put child r (File d')) es Hc
                (is_dir_node_put_file child r d d' H)
                (fun top => IH child top H)) as (-> & -> & ->).
    done.
Qed.

Lemma walk_at_put_file t cp d d' top dircp :
  node_at t cp = Some (File d) ->
  option_map (walk_node top) (node_at (put t cp (File d')) dircp)
  = option_map (walk_node top) (node_at t dircp).
Proof.
  revert t dircp. induction cp as [|c cp IH]; intros t dircp H.
  - simpl in H. injection H as ->. by destruct dircp.
  - destruct dircp as [|c2 d2].
    + cbn [node_at option_map]. f_equal. by apply (walk_node_put_file _ _ d).
    + destruct t as [d0|es]; [done|]. simpl in H.
      destruct (assoc c es) as [child|] eqn:Hc; [|done].
      cbn [put]. rewrite Hc. cbn [node_at].
      destruct (decide (c = c2)) as [->|Hne].
      * rewrite assoc_put_eq, Hc. by apply IH.
      * by rewrite assoc_put_ne.
Qed.

(** *** Counting *)

Lemma triples_members_app ts1 ts2 :
  triples_members (ts1 ++ ts2) = triples_members ts1 + triples_members ts2.
Proof. unfold triples_members. by rewrite map_app, list_sum_app. Qed.

Lemma files_below_dir es :
  files_below (Dir es) = list_sum (map (fun e => files_below (snd e)) es).
Proof.
  induction es as [|[k c] es IH]; [done|].
  change (files_below (Dir ((k, c) :: es)))
    with (files_below c + files_below (Dir es)).
  by rewrite IH.
Qed.

Lemma empty_dirs_below_dir e es :
  empty_dirs_below (Dir (e :: es))
  = list_sum (map (fun e => empty_dirs_below (snd e)) (e :: es)).
Proof.
  change (empty_dirs_below (Dir (e :: es)))
    with ((fix go (l : list (string * Node)) : nat :=
             match l with
             | [] => 0
             | (_, child) :: l' => empty_dirs_below child + go l'
             end) (e :: es)).
  generalize (e :: es). intros l.
  induction l as [|[k c] l IH]; [done|]. simpl. by rewrite IH.
Qed.

(** [os.walk] gives [zip_dir] one member per regular file and one per
    empty directory. *)
Lemma walk_members n top :
  triples_members (walk_node top n)
  = (if is_dir_node n then files_below n else 0) + empty_dirs_below n.
Proof.
  revert top. induction n as [d|es IH] using Node_induction; intros top.
  - done.
  - rewrite walk_node_dir. cbn [is_dir_node].
    change (triples_members (?t :: ?ts))
      with (triple_members t + triples_members ts).
    rewrite files_below_dir. cbn [triple_members].
    assert (Hsum :
      length (file_names es)
      + triples_members
          (flat_map (fun e => walk_node (os_path_join top (fst e)) (snd e)) es)
      = list_sum (map (fun e => files_below (snd e)) es)
        + list_sum (map (fun e => empty_dirs_below (snd e)) es)).
    { clear -IH. unfold file_names.
      induction es as [|[k c] es IHes]; [done|].
      apply Forall_cons in IH as [Hc Hes]. specialize (IHes Hes).
      cbn [flat_map map list_sum List.filter fst snd] in *.
      rewrite triples_members_app, (Hc (os_path_join top k)).
      destruct c as [d|es'].
      + change (is_dir_node (File d)) with false.
        change (files_below (File d)) with 1.
        change (empty_dirs_below (File d)) with 0.
        cbn [negb map length].
        change (list_sum (?a :: ?l)) with (a + list_sum l). lia.
      + change (is_dir_node (Dir es')) with true.
        cbn [negb].
        change (list_sum (?a :: ?l)) with (a + list_sum l). lia. }
    destruct es as [|e es].
    + done.
    + rewrite empty_dirs_below_dir.
      assert (Hne : match file_names (e :: es), dir_names (e :: es) with
                    | [], [] => 1
                    | _, _ => 0
                    end = 0).
      { destruct e as [k c]. unfold file_names, dir_names.
        cbn [List.filter snd].
        destruct c as [d|es'];
          [change (is_dir_node (File d)) with false
          |change (is_dir_node (Dir es')) with true];
          cbn [negb map]; [done|].
        by destruct (map fst (List.filter _ es)). }
      rewrite Hne. lia.
Qed.

(** ** [zip_dir]: what a successful call leaves *)

Lemma zip_dir_target dir_path zip_file_path :
  zip_dir dir_path zip_file_path
  = zip_dir dir_path (Some (zip_target dir_path zip_file_path)).
Proof.
  assert (He : str_is_empty (dir_path +:+ ".zip") = false)
    by by destruct dir_path.
  unfold zip_dir, zip_target.
  destruct zip_file_path as [z|]; [|by rewrite He].
  destruct (str_is_empty z) eqn:E; [by rewrite He | by rewrite E].
Qed.

Lemma zip_dir_Ok_final dir_path zip_file_path w w' :
  zip_dir dir_path zip_file_path w = (Ok tt, w') ->
  exists cp ms,
    resolve w (zip_target dir_path zip_file_path) = inr cp /\
    fs w' = put (fs w) cp (File (Zip ms)) /\ cwd w' = cwd w /\
    path_node w' (zip_target dir_path zip_file_path) = Some (File (Zip ms)) /\
    Forall (fun m => file_member m \/ directory_member m) ms /\
    exists es,
      path_node w' dir_path = Some (Dir es) /\
      length ms = files_below (Dir es) + empty_dirs_below (Dir es).
Proof.
  intros H.
  destruct (keeps_zip_dir _ _ _ _ _ H) as (Hsub & _ & _).
  apply zip_dir_Ok in H
    as (cp & ms & w1 & Hr & Hdir & Hf1 & Hc1 & Hf' & Hc' & Hall & Hlen).
  exists cp, ms.
  assert (Hpar : cp = [] \/ kind_at (fs w) (removelast cp) = Some true)
    by by eapply resolve_parent.
  assert (Hn1 : node_at (fs w1) cp = Some (File (Raw ""))).
  { rewrite Hf1. by apply node_at_put_new. }
  assert (Hf'1 : fs w' = put (fs w1) cp (File (Zip ms))).
  { by rewrite Hf1, put_put. }
  assert (Hres : forall p, resolve w' p = resolve w1 p).
  { intros p. rewrite <- (resolve_put_file w1 cp (Raw "") (Zip ms) p Hn1).
    apply resolve_ext; cbn [fs cwd]; congruence. }
  repeat split; try done.
  - unfold path_node. rewrite (resolve_sub w w' _ cp Hsub Hc' Hr), Hf'.
    by apply node_at_put_new.
  - rewrite isdir_b_kind in Hdir.
    destruct (resolve w dir_path) as [e|cd] eqn:Hrd; [done|].
    destruct (kind_at (fs w) cd) as [[|]|] eqn:Hk; try done.
    pose proof (resolve_sub w w' _ cd Hsub Hc' Hrd) as Hrd'.
    pose proof (Hsub _ _ Hk) as Hk'.
    unfold kind_at in Hk'.
    destruct (node_at (fs w') cd) as [[d|es]|] eqn:Hn'; try done.
    exists es. split; [unfold path_node; by rewrite Hrd', Hn'|].
    pose proof (walk_at_put_file (fs w1) cp (Raw "") (Zip ms) dir_path cd Hn1)
      as Hw.
    rewrite <- Hf'1, Hn' in Hw.
    rewrite Hlen. unfold path_node. rewrite <- Hres, Hrd'.
    destruct (node_at (fs w1) cd) as [n1|]; [|done].
    cbn [option_map] in Hw. injection Hw as Hw. rewrite <- Hw.
    exact (walk_members (Dir es) dir_path).
Qed.

(** X8: for every directory, archive path and world, when [zip_dir]
    returns, the tree differs from the one before the call in one entry
    only: the archive path ([zip_file_path], or [dir_path + ".zip"] when
    that is missing or empty) now holds a regular file that is a zip
    archive.  The working directory of the process is the same, and the
    archive path afterwards names that archive. *)
Theorem zip_dir_writes_only_archive dir_path zip_file_path w w' :
  zip_dir dir_path zip_file_path w = (Ok tt, w') ->
  exists cp ms,
    resolve w (zip_target dir_path zip_file_path) = inr cp /\
    fs w' = put (fs w) cp (File (Zip ms)) /\
    cwd w' = cwd w /\
    path_node w' (zip_target dir_path zip_file_path) = Some (File (Zip ms)).
Proof.
  intros H.
  apply zip_dir_Ok_final in H as (cp & ms & Hr & Hf & Hc & Hp & _).
  by exists cp, ms.
Qed.

Lemma zip_dir_writes_only_archive_witness :
  let w := unpacked_world [] in
  let w' := snd (zip_dir "/tmp/INKPY/42" (Some "/tmp/INKPY/report.odt") w) in
  exists cp ms,
    resolve w "/tmp/INKPY/report.odt" = inr cp /\
    fs w' = put (fs w) cp (File (Zip ms)) /\
    cwd w' = cwd w /\
    path_node w' "/tmp/INKPY/report.odt" = Some (File (Zip ms)).
Proof.
  apply (zip_dir_writes_only_archive "/tmp/INKPY/42"
           (Some "/tmp/INKPY/report.odt") (unpacked_world [])).
  vm_compute. reflexivity.
Defined.

(** X9: every member of the archive a successful [zip_dir] leaves is of
    one of two kinds: stored by [ZipFile.write], under a name that does
    not start with a separator, or an entry without content whose name
    ends with a separator (the entry of an empty directory). *)
Theorem zip_dir_member_kinds dir_path zip_file_path w w' :
  zip_dir dir_path zip_file_path w = (Ok tt, w') ->
  exists ms,
    path_node w' (zip_target dir_path zip_file_path) = Some (File (Zip ms)) /\
    Forall (fun m => file_member m \/ directory_member m) ms.
Proof.
  intros H.
  apply zip_dir_Ok_final in H as (cp & ms & _ & _ & _ & Hp & Hall & _).
  by exists ms.
Qed.

Lemma zip_dir_member_kinds_witness :
  let w := unpacked_world [] in
  let w' := snd (zip_dir "/tmp/INKPY/42" None w) in
  exists ms,
    path_node w' "/tmp/INKPY/42.zip" = Some (File (Zip ms)) /\
    Forall (fun m => file_member m \/ directory_member m) ms.
Proof.
  apply (zip_dir_member_kinds "/tmp/INKPY/42" None (unpacked_world [])).
  vm_compute. reflexivity.
Defined.

(** X10: the archive a successful [zip_dir] leaves has exactly one member
    for every regular file at any depth below the directory and one for
    every empty directory at or below it, counted in the tree the call
    leaves (the archive is opened, and so created, before the directory
    is listed). *)
Theorem zip_dir_member_count dir_path zip_file_path w w' :
  zip_dir dir_path zip_file_path w = (Ok tt, w') ->
  exists ms es,
    path_node w' (zip_target dir_path zip_file_path) = Some (File (Zip ms)) /\
    path_node w' dir_path = Some (Dir es) /\
    length ms = files_below (Dir es) + empty_dirs_below (Dir es).
Proof.
  intros H.
  apply zip_dir_Ok_final in H
    as (cp & ms & _ & _ & _ & Hp & _ & es & Hd & Hlen).
  by exists ms, es.
Qed.

Lemma zip_dir_member_count_witness :
  let w := unpacked_world [] in
  let w' := snd (zip_dir "/tmp/INKPY/42" (Some "/tmp/INKPY/report.odt") w) in
  exists ms es,
    path_node w' "/tmp/INKPY/report.odt" = Some (File (Zip ms)) /\
    path_node w' "/tmp/INKPY/42" = Some (Dir es) /\
    length ms = files_below (Dir es) + empty_dirs_below (Dir es).
Proof.
  apply (zip_dir_member_count "/tmp/INKPY/42"
           (Some "/tmp/INKPY/report.odt") (unpacked_world [])).
  vm_compute. reflexivity.
Defined.

(** X11: what an existing archive held before the call has no influence
    on what [zip_dir] does, whichever way the archive path is given
    (explicitly, or by default as [dir_path + ".zip"]): with any other
    content [d'] in place of the existing archive, the call ends in the
    same way and leaves the same world. *)
Theorem zip_dir_ignores_previous_archive w dir_path zip_file_path cp d d' :
  isdir_b w dir_path = true ->
  endswith_slash (zip_target dir_path zip_file_path) = false ->
  resolve w (zip_target dir_path zip_file_path) = inr cp ->
  node_at (fs w) cp = Some (File d) ->
  zip_dir dir_path zip_file_path
    (mkWorld (put (fs w) cp (File d')) (cwd w) (log w))
  = zip_dir dir_path zip_file_path w.
Proof.
  intros Hdir Hz Hr Hn. rewrite zip_dir_target.
  by apply (zip_dir_forgets_archive w dir_path _ cp d d').
Qed.

Lemma zip_dir_ignores_previous_archive_witness :
  let w := unpacked_world [("42.zip", File (Zip [("old.txt", Raw "stale")]))] in
  zip_dir "/tmp/INKPY/42" None
    (mkWorld (put (fs w) ["tmp"; "INKPY"; "42.zip"] (File (Raw "junk")))
       (cwd w) (log w))
  = zip_dir "/tmp/INKPY/42" None w.
Proof.
  apply (zip_dir_ignores_previous_archive
           (unpacked_world [("42.zip", File (Zip [("old.txt", Raw "stale")]))])
           "/tmp/INKPY/42" None ["tmp"; "INKPY"; "42.zip"]
           (Zip [("old.txt", Raw "stale")]) (Raw "junk"));
    vm_compute; reflexivity.
Defined.

Lemma ZipFile_open_w_directory p w :
  endswith_slash p = false -> isdir_b w p = true ->
  ZipFile_open_w p w
  = (Raise IsADirectoryError, logged w (Call "zipfile.ZipFile(w)" p)).
Proof.
  intros Hz Hd. unfold ZipFile_open_w, bind, trace, get_world.
  cbn [fs cwd log]. unfold resolve_for_writing. rewrite Hz.
  change (resolve _ p) with (resolve w p).
  unfold isdir_b, path_node in Hd.
  destruct (resolve w p) as [e|cp]; [done|]. cbn [lift_exc ret].
  by destruct (node_at (fs w) cp) as [[?|?]|].
Qed.

(** X12: when the archive path names an existing directory, [zip_dir]
    raises [IsADirectoryError] (from opening the archive for writing)
    and leaves the tree as it was: nothing is packed. *)
Theorem zip_dir_archive_is_directory dir_path zip_file_path w :
  isdir_b w dir_path = true ->
  endswith_slash (zip_target dir_path zip_file_path) = false ->
  isdir_b w (zip_target dir_path zip_file_path) = true ->
  exists w',
    zip_dir dir_path zip_file_path w = (Raise IsADirectoryError, w') /\
    fs w' = fs w /\ cwd w' = cwd w /\
    isinstance IsADirectoryError COSError = true.
Proof.
  intros Hdir Hz Hzd. rewrite zip_dir_target. unfold zip_dir.
  assert (He : str_is_empty (zip_target dir_path zip_file_path) = false).
  { destruct (zip_target dir_path zip_file_path); [|done].
    by unfold isdir_b, path_node, resolve in Hzd. }
  rewrite He, bind_os_path_isdir, Hdir. cbn [negb].
  destruct (os_path_split dir_path) as [parentDir dirToZip].
  unfold bind at 1. rewrite ZipFile_open_w_directory; [|done|done].
  eexists. split; [reflexivity|]. done.
Qed.

Lemma zip_dir_archive_is_directory_witness :
  exists w',
    zip_dir "/tmp/INKPY/42" (Some "/tmp/INKPY") (unpacked_world [])
    = (Raise IsADirectoryError, w') /\
    fs w' = fs (unpacked_world []) /\ cwd w' = cwd (unpacked_world []) /\
    isinstance IsADirectoryError COSError = true.
Proof.
  apply (zip_dir_archive_is_directory "/tmp/INKPY/42" (Some "/tmp/INKPY")
           (unpacked_world [])); vm_compute; reflexivity.
Defined.

(** ** [render] *)

Lemma read_file_run p w cp d :
  resolve w p = inr cp -> node_at (fs w) cp = Some (File d) ->
  read_file p w = (Ok d, logged w (Call "open(rb)" p)).
Proof.
  intros Hr Hn. unfold read_file, bind, trace, get_world. cbn [fs cwd log].
  change (resolve _ p) with (resolve w p). rewrite Hr. cbn [lift_exc ret].
  by rewrite Hn.
Qed.

Lemma read_file_absent p w :
  exists_b w p = false ->
  exists e,
    read_file p w = (Raise e, logged w (Call "open(rb)" p)) /\
    (e = FileNotFoundError \/ e = NotADirectoryError).
Proof.
  intros Hex. unfold read_file, bind, trace, get_world. cbn [fs cwd log].
  change (resolve _ p) with (resolve w p).
  unfold exists_b, path_node in Hex.
  destruct (resolve w p) as [e|cp] eqn:Hr; cbn [lift_exc raise ret].
  - exists e. split; [done|]. by eapply resolve_exc.
  - destruct (node_at (fs w) cp); [done|]. exists FileNotFoundError. by split; [|left].
Qed.

Lemma write_file_run p w cp d d' :
  endswith_slash p = false ->
  resolve w p = inr cp -> node_at (fs w) cp = Some (File d) ->
  write_file p d' w
  = (Ok tt, mkWorld (put (fs w) cp (File d')) (cwd w)
              (log w ++ [Call "open(wb)" p])).
Proof.
  intros Hz Hr Hn. unfold write_file, bind, trace, get_world.
  cbn [fs cwd log]. unfold resolve_for_writing. rewrite Hz.
  change (resolve _ p) with (resolve w p). rewrite Hr. cbn [lift_exc ret].
  by rewrite Hn.
Qed.

Lemma endswith_slash_app a c b :
  endswith_slash (a +:+ String c b) = endswith_slash (String c b).
Proof.
  induction a as [|x a IH]; [done|]. rewrite str_app_cons.
  change (endswith_slash (String x (a +:+ String c b)))
    with (match a +:+ String c b with
          | EmptyString => ascii_eqb x slash
          | _ => endswith_slash (a +:+ String c b)
          end).
  rewrite IH. by destruct a.
Qed.

(** One run of [_render] on an existing regular file. *)
Lemma _render_run jinja self p w cp d :
  endswith_slash p = false ->
  resolve w p = inr cp -> node_at (fs w) cp = Some (File d) ->
  _render jinja self p w
  = match jinja (data self) d with
    | inr s =>
        (Ok tt, mkWorld (put (fs w) cp (File (Raw s))) (cwd w)
                  (log w ++ [Call "open(rb)" p; Call "open(wb)" p]))
    | inl e => (Raise e, logged w (Call "open(rb)" p))
    end.
Proof.
  intros Hz Hr Hn. unfold _render. unfold bind at 1.
  rewrite (read_file_run p w cp d Hr Hn). unfold bind, _jinja_renderer.
  destruct (jinja (data self) d) as [e|s]; cbn [lift_exc raise ret]; [done|].
  rewrite (write_file_run p _ cp d); [|done|done|done].
  unfold logged. cbn [fs cwd log]. by rewrite <- app_assoc.
Qed.






Lemma path_node_file w p d :
  path_node w p = Some (File d) ->
  exists cp, resolve w p = inr cp /\ node_at (fs w) cp = Some (File d).
Proof.
  unfold path_node. destruct (resolve w p) as [e|cp]; [done|]. by exists cp.
Qed.



(** X14: when the engine fails on [content.xml], [render] raises the
    engine's exception right away: the tree is the one before the call,
    [styles.xml] has not even been opened ([content.xml] opened for
    reading is the only call made), whether or not [styles.xml] is
    there. *)
Theorem render_engine_failure_on_content jinja self w d1 e :
  path_node w (tmp_dir self +:+ "/content.xml") = Some (File d1) ->
  jinja (data self) d1 = inl e ->
  render jinja self w
  = (Raise e, logged w (Call "open(rb)" (tmp_dir self +:+ "/content.xml"))).
Proof.
  intros H1 Hj.
  apply path_node_file in H1 as (cp1 & Hr1 & Hn1).
  unfold render, bind.
  rewrite (_render_run jinja self _ w cp1 d1);
    [|by rewrite endswith_slash_app|done|done].
  by rewrite Hj.
Qed.

Lemma render_engine_failure_on_content_witness :
  let w :=
    mkWorld (put (unpacked_fs []) ["tmp"; "INKPY"; "42"; "content.xml"]
               (File (Raw "{% endfor %}"))) [] [] in
  render demo_jinja (demo_converter "report.odt") w
  = (Raise (External "TemplateSyntaxError"),
     logged w (Call "open(rb)" "/tmp/INKPY/42/content.xml")).
Proof.
  apply (render_engine_failure_on_content demo_jinja
           (demo_converter "report.odt")
           (mkWorld (put (unpacked_fs []) ["tmp"; "INKPY"; "42"; "content.xml"]
                       (File (Raw "{% endfor %}"))) [] [])
           (Raw "{% endfor %}") (External "TemplateSyntaxError"));
    vm_compute; reflexivity.
Defined.



(** X16: when [content.xml] is not in the working directory (the
    template had no such entry), [render] raises an [OSError]
    ([FileNotFoundError], or [NotADirectoryError] when a component of the
    path is a regular file) from opening it; the engine is not called
    and the tree is the one before the call. *)
Theorem render_missing_content jinja self w :
  exists_b w (tmp_dir self +:+ "/content.xml") = false ->
  exists e,
    render jinja self w
    = (Raise e,
       logged w (Call "open(rb)" (tmp_dir self +:+ "/content.xml"))) /\
    (e = FileNotFoundError \/ e = NotADirectoryError) /\
    isinstance e COSError = true.
Proof.
  intros Hex.
  destruct (read_file_absent _ w Hex) as (e & Hread & He).
  exists e. split; [|split; [done|by destruct He as [-> | ->]]].
  unfold render, _render, bind. by rewrite Hread.
Qed.

Lemma render_missing_content_witness :
  exists e,
    render demo_jinja (demo_converter "report.odt") demo_world
    = (Raise e,
       logged demo_world (Call "open(rb)" "/tmp/INKPY/42/content.xml")) /\
    (e = FileNotFoundError \/ e = NotADirectoryError) /\
    isinstance e COSError = true.
Proof.
  apply (render_missing_content demo_jinja (demo_converter "report.odt")
           demo_world).
  vm_compute. reflexivity.
Defined.

(** ** [remove_tmp], [unzip_odt] and the pipeline *)

Lemma shutil_rmtree_absent p w :
  exists_b w p = false ->
  exists e,
    shutil_rmtree p w = (Raise e, logged w (Call "shutil.rmtree" p)) /\
    (e = FileNotFoundError \/ e = NotADirectoryError).
Proof.
  intros Hex. unfold shutil_rmtree, bind at 1 2 3, trace, get_world.
  cbn [fs cwd log]. change (resolve _ p) with (resolve w p).
  unfold exists_b, path_node in Hex.
  destruct (resolve w p) as [e|cp] eqn:Hr; cbn [lift_exc raise ret].
  - exists e. split; [done|]. by eapply resolve_exc.
  - destruct (node_at (fs w) cp); [done|].
    exists FileNotFoundError. by split; [|left].
Qed.

Lemma os_remove_absent p w :
  exists_b w p = false ->
  exists e,
    os_remove p w = (Raise e, logged w (Call "os.remove" p)) /\
    (e = FileNotFoundError \/ e = NotADirectoryError).
Proof.
  intros Hex. unfold os_remove, bind, trace, get_world.
  cbn [fs cwd log]. change (resolve _ p) with (resolve w p).
  unfold exists_b, path_node in Hex.
  destruct (resolve w p) as [e|cp] eqn:Hr; cbn [lift_exc raise ret].
  - exists e. split; [done|]. by eapply resolve_exc.
  - destruct (node_at (fs w) cp); [done|].
    exists FileNotFoundError. by split; [|left].
Qed.

(** X17: when the working directory does not exist, [remove_tmp] raises
    an [OSError] from [shutil.rmtree] and stops there: [os.remove] is not
    called, so the tree is the one before the call and an intermediate
    archive that exists is left behind. *)
Theorem remove_tmp_missing_directory self w :
  exists_b w (tmp_dir self) = false ->
  exists e,
    remove_tmp self w
    = (Raise e, logged w (Call "shutil.rmtree" (tmp_dir self))) /\
    (e = FileNotFoundError \/ e = NotADirectoryError) /\
    isinstance e COSError = true.
Proof.
  intros Hex.
  destruct (shutil_rmtree_absent _ w Hex) as (e & Hrm & He).
  exists e. split; [|split; [done|by destruct He as [-> | ->]]].
  unfold remove_tmp, bind. by rewrite Hrm.
Qed.

Lemma remove_tmp_missing_directory_witness :
  let self := demo_converter "report.odt" in
  let w :=
    mkWorld (Dir [("tmp",
                   Dir [("INKPY", Dir [("report.odt", File demo_odt)])])])
      [] [] in
  exists e,
    remove_tmp self w
    = (Raise e, logged w (Call "shutil.rmtree" (tmp_dir self))) /\
    (e = FileNotFoundError \/ e = NotADirectoryError) /\
    isinstance e COSError = true.
Proof.
  intros self w. apply (remove_tmp_missing_directory self w).
  vm_compute. reflexivity.
Defined.

(** X18: when the working directory can be removed and the intermediate
    archive does not exist, [remove_tmp] raises an [OSError] from
    [os.remove] after the directory is gone. *)
Theorem remove_tmp_missing_archive self w w1 :
  shutil_rmtree (tmp_dir self) w = (Ok tt, w1) ->
  exists_b w (tmp_odt self) = false ->
  exists e w',
    remove_tmp self w = (Raise e, w') /\
    w' = logged w1 (Call "os.remove" (tmp_odt self)) /\
    isinstance e COSError = true /\
    exists_b w' (tmp_dir self) = false.
Proof.
  intros Hrm Hex.
  pose proof (shutil_rmtree_Ok _ _ _ Hrm) as [Hgone [Hsub Hcwd]].
  assert (Hex1 : exists_b w1 (tmp_odt self) = false)
    by by apply (not_exists_sub w w1).
  destruct (os_remove_absent _ w1 Hex1) as (e & Hos & He).
  exists e, (logged w1 (Call "os.remove" (tmp_odt self))).
  split; [|split; [done|split]].
  - unfold remove_tmp, bind. by rewrite Hrm.
  - by destruct He as [-> | ->].
  - by rewrite exists_b_logged.
Qed.

Lemma remove_tmp_missing_archive_witness :
  let self := demo_converter "report.odt" in
  exists e w',
    remove_tmp self (unpacked_world []) = (Raise e, w') /\
    w' = logged (snd (shutil_rmtree (tmp_dir self) (unpacked_world [])))
           (Call "os.remove" (tmp_odt self)) /\
    isinstance e COSError = true /\
    exists_b w' (tmp_dir self) = false.
Proof.
  intros self.
  apply (remove_tmp_missing_archive self (unpacked_world [])
           (snd (shutil_rmtree (tmp_dir self) (unpacked_world []))));
    vm_compute; reflexivity.
Defined.

Lemma ZipFile_read_raw p w cp b :
  resolve w p = inr cp -> node_at (fs w) cp = Some (File (Raw b)) ->
  ZipFile_read p w = (Raise BadZipFile, logged w (Call "zipfile.ZipFile(r)" p)).
Proof.
  intros Hr Hn. unfold ZipFile_read, bind, trace, get_world.
  cbn [fs cwd log]. change (resolve _ p) with (resolve w p).
  rewrite Hr. cbn [lift_exc ret]. by rewrite Hn.
Qed.

(** X19: when the working directory is already there and the source is
    a regular file that is no zip archive, [unzip_odt] raises
    [BadZipFile]; nothing is extracted or created, the only calls are the
    existence check of the working directory and the opening of the
    source. *)
Theorem unzip_odt_source_not_zip self w b :
  exists_b w (tmp_dir self) = true ->
  path_node w (source_file self) = Some (File (Raw b)) ->
  unzip_odt self w
  = (Raise BadZipFile,
     mkWorld (fs w) (cwd w)
       (log w ++ [Call "os.path.exists" (tmp_dir self);
                  Call "zipfile.ZipFile(r)" (source_file self)])).
Proof.
  intros Hex Hsrc. apply path_node_file in Hsrc as (cp & Hr & Hn).
  unfold unzip_odt. unfold bind at 1. rewrite os_path_exists_run, Hex.
  cbn [negb]. unfold bind at 1. cbn [ret]. unfold bind.
  rewrite (ZipFile_read_raw _ _ cp b); [|done|done].
  unfold logged. cbn [fs cwd log]. by rewrite <- app_assoc.
Qed.

Lemma unzip_odt_source_not_zip_witness :
  let self :=
    mkConverter "/tmp/INKPY/42/styles.xml" "out.pdf" demo_data
      (PyStr "/tmp/INKPY") "/tmp/INKPY/42" "/tmp/INKPY/styles.odt"
      (PyStr "pl") (ret tt) in
  let w := unpacked_world [] in
  unzip_odt self w
  = (Raise BadZipFile,
     mkWorld (fs w) (cwd w)
       (log w ++ [Call "os.path.exists" (tmp_dir self);
                  Call "zipfile.ZipFile(r)" (source_file self)])).
Proof.
  intros self w.
  apply (unzip_odt_source_not_zip self w "<styles/>");
    vm_compute; reflexivity.
Defined.

(** X20: extracting, rendering and repacking together never take
    anything away, however they end: every path that named a directory
    or a regular file before still names one of the same kind, the
    working directory of the process is the same, and none of
    [shutil.rmtree], [os.remove], [os.rmdir] has been called.  In
    particular what lay in the working directory before the request
    (left by an earlier one) is still there when the directory is
    packed. *)
Theorem pipeline_removes_nothing jinja self w r w' :
  (unzip_odt self ;;; render jinja self ;;; zip_odt self) w = (r, w') ->
  extends w w' /\ nothing_removed w w'.
Proof.
  intros H.
  assert (He : extends w w').
  { revert H. apply keeps_bind; [apply keeps_unzip_odt|]. intros _.
    apply keeps_bind; [apply keeps_render|]. intros _. apply keeps_zip_odt. }
  split; [done | by apply extends_nothing_removed].
Qed.

Lemma pipeline_removes_nothing_witness :
  let self := demo_converter "report.odt" in
  let w := demo_world in
  let w' :=
    snd ((unzip_odt self ;;; render demo_jinja self ;;; zip_odt self) w) in
  extends w w' /\ nothing_removed w w'.
Proof.
  intros self w w'.
  apply (pipeline_removes_nothing demo_jinja self w (Ok tt) w').
  vm_compute. reflexivity.
Defined.

Lemma zip_target_Some dir z :
  str_is_empty z = false -> zip_target dir (Some z) = z.
Proof. intros H. unfold zip_target. by rewrite H. Qed.

(** X21: when extracting, rendering and repacking have succeeded,
    [tmp_odt] (the path [__init__] hands to the backend as its input)
    names a regular file that is a zip archive, and what [convert] does
    from there is the backend's [render] followed by [remove_tmp]. *)
Theorem backend_gets_archive jinja self w w3 :
  str_is_empty (tmp_odt self) = false ->
  (unzip_odt self ;;; render jinja self ;;; zip_odt self) w = (Ok tt, w3) ->
  (exists ms, path_node w3 (tmp_odt self) = Some (File (Zip ms))) /\
  convert jinja self w = (to_pdf self ;;; remove_tmp self) w3.
Proof.
  intros Hne H. split.
  - apply bind_Ok in H as ([] & w1 & _ & H).
    apply bind_Ok in H as ([] & w2 & _ & H).
    unfold zip_odt in H.
    apply zip_dir_Ok_final in H as (cp & ms & _ & _ & _ & Hp & _).
    rewrite (zip_target_Some _ _ Hne) in Hp. by exists ms.
  - unfold convert, _convert. revert H. unfold bind.
    destruct (unzip_odt self w) as [[[]|e] w1]; [|done].
    destruct (render jinja self w1) as [[[]|e] w2]; [|done].
    by intros ->.
Qed.

Lemma backend_gets_archive_witness :
  let self := demo_converter "report.odt" in
  let w3 :=
    snd ((unzip_odt self ;;; render demo_jinja self ;;; zip_odt self)
           demo_world) in
  (exists ms, path_node w3 (tmp_odt self) = Some (File (Zip ms))) /\
  convert demo_jinja self demo_world = (to_pdf self ;;; remove_tmp self) w3.
Proof.
  intros self w3.
  apply (backend_gets_archive demo_jinja self demo_world w3);
    vm_compute; reflexivity.
Defined.

Lemma str_app_nonempty a c b : str_is_empty (a +:+ String c b) = false.
Proof. by destruct a. Qed.

(** X22: a request whose id has the text of the archive's file name
    (the id ["report.odt"] for the source [report.odt]) has the same
    path as working directory and as intermediate archive; repacking
    cannot succeed then (the archive would have to replace the directory
    it packs), so [convert] ends in an exception for such a request, in
    whatever state the file system is. *)
Theorem convert_id_names_archive settings ER jinja
    src out data backend lang w0 self w0' v :
  __init__ settings ER src out data backend lang w0 = (Ok self, w0') ->
  data !! "id" = Some v ->
  py_str v = tmp_odt_name src ->
  tmp_dir self = tmp_odt self /\
  forall w w', convert jinja self w <> (Ok tt, w').
Proof.
  intros Hinit Hid Hv.
  apply init_Ok in Hinit as (_ & (v' & Hid' & _ & Hdir) & Hodt & _).
  rewrite Hid in Hid'. injection Hid' as <-.
  assert (Heq : tmp_dir self = tmp_odt self) by by rewrite Hdir, Hodt, Hv.
  split; [done|]. intros w w' H.
  unfold convert, _convert in H.
  apply bind_Ok in H as ([] & w1 & _ & H).
  apply bind_Ok in H as ([] & w2 & _ & H).
  apply bind_Ok in H as ([] & w3 & H & _).
  unfold zip_odt in H.
  apply zip_dir_Ok_final in H as (cp & ms & _ & _ & _ & Hp & _ & es & Hd & _).
  rewrite zip_target_Some in Hp.
  - rewrite Heq in Hd. by rewrite Hp in Hd.
  - rewrite Hodt. apply str_app_nonempty.
Qed.

Lemma convert_id_names_archive_witness :
  let self :=
    mkConverter "report.odt" "out.pdf" (<["id" := PyStr "report.odt"]> ∅)
      (PyStr "/tmp/INKPY") "/tmp/INKPY/report.odt" "/tmp/INKPY/report.odt"
      (PyStr "pl") (demo_backend "out.pdf" "/tmp/INKPY/report.odt") in
  tmp_dir self = tmp_odt self /\
  forall w w', convert demo_jinja self w <> (Ok tt, w').
Proof.
  intros self.
  apply (convert_id_names_archive ∅ demo_backend demo_jinja
           "report.odt" "out.pdf" (<["id" := PyStr "report.odt"]> ∅)
           None PyNone demo_world self
           (logged demo_world (Call "os.path.exists" "report.odt"))
           (PyStr "report.odt")); vm_compute; reflexivity.
Defined.

(** X23: [set_lang] never raises and never takes anything from
    [settings]: whatever [settings] holds, the language stored is the
    argument when that is truthy and ["pl"] otherwise, and no other
    attribute of the object changes. *)
Theorem set_lang_total settings self lang :
  exists self',
    set_lang settings self lang = inr self' /\
    lang_code self' = (if truthy lang then lang else PyStr "pl") /\
    source_file self' = source_file self /\
    output_path self' = output_path self /\
    data self' = data self /\
    tmp_dir self' = tmp_dir self /\
    tmp_odt self' = tmp_odt self /\
    backend self' = backend self.
Proof.
  eexists. split; [apply set_lang_result|]. done.
Qed.
